(** * Energy splitting and the Tracy job runner (openstf)

    A shallow embedding of [openstf/model/split_energy.py] and
    [openstf/tasks/run_tracy.py].

    Modelling conventions.
    - numpy/pandas floats are exact rationals ([Q]); rounding and NaN are
      not represented.  Where pandas would yield NaN on an empty column
      ([max], [min], [mean]) the model yields [0].
    - A Python [dict] is an association list in insertion order with
      distinct keys ([dict_setitem] keeps the position of an existing key).
    - A [pandas.DataFrame] is its index together with its named columns, in
      column order.
    - A raised exception is the [Raise] case of [result]; code with side
      effects runs in the state-and-exception monad [io].
    - [scipy.optimize.curve_fit], the database, the clock, the alert sink and
      the task handlers are collaborators outside the repository; they are
      parameters of the model. *)

From Stdlib Require Import List String ZArith QArith Qabs Qminmax Bool Lia Lqa.
Import ListNotations.
Open Scope string_scope.
Open Scope list_scope.
Open Scope Q_scope.

(** ** Exceptions and results *)

(** The exceptions the model tells apart; [External] is whatever a
    collaborator raises. *)
Inductive exn : Type :=
| KeyError (key : string)
| IndexError
| ValueError
| Exception (msg : string)
| External (what : string).

Inductive result (A : Type) : Type :=
| Ok (a : A)
| Raise (e : exn).
Arguments Ok {A} a.
Arguments Raise {A} e.

Class PyMonad (m : Type -> Type) : Type :=
  { ret : forall {A}, A -> m A;
    bind : forall {A B}, m A -> (A -> m B) -> m B }.

Declare Scope py_scope.
Delimit Scope py_scope with py.
Notation "x <- c ;; k" := (bind c (fun x => k))
  (at level 61, c at next level, right associativity) : py_scope.
Notation "' pat <- c ;; k" := (bind c (fun x => match x with pat => k end))
  (at level 61, pat pattern, c at next level, right associativity) : py_scope.
Notation "c ;; k" := (bind c (fun _ => k))
  (at level 61, right associativity) : py_scope.
Open Scope py_scope.

#[export] Instance result_monad : PyMonad result :=
  { ret := fun A a => Ok a;
    bind := fun A B c k => match c with Ok a => k a | Raise e => Raise e end }.

(** [io W A]: a computation over a world [W] that returns or raises; the
    effects performed before an exception stay performed. *)
Definition io (W A : Type) : Type := W -> result A * W.

#[export] Instance io_monad (W : Type) : PyMonad (io W) :=
  { ret := fun A a w => (Ok a, w);
    bind := fun A B c k w =>
      match c w with
      | (Ok a, w') => k a w'
      | (Raise e, w') => (Raise e, w')
      end }.

Definition lift {W A} (r : result A) : io W A := fun w => (r, w).

(** [try: body except Exception: handler]. *)
Definition try_except {W A} (body : io W A) (handler : exn -> io W A) : io W A :=
  fun w => match body w with
           | (Ok a, w') => (Ok a, w')
           | (Raise e, w') => handler e w'
           end.

(** ** Numbers *)

Definition Qltb (x y : Q) : bool := negb (Qle_bool y x).

Definition Qsum (l : list Q) : Q := fold_left Qplus l 0.

(** [Series.max()] and [Series.min()]. *)
Definition series_max (l : list Q) : Q :=
  match l with
  | [] => 0
  | x :: r => fold_left Qmax r x
  end.

Definition series_min (l : list Q) : Q :=
  match l with
  | [] => 0
  | x :: r => fold_left Qmin r x
  end.

(** [Series.mean()]. *)
Definition series_mean (l : list Q) : Q :=
  Qsum l / inject_Z (Z.of_nat (List.length l)).

(** Element-wise operations on equally long columns. *)
Definition vsub (a b : list Q) : list Q :=
  map (fun p => fst p - snd p) (combine a b).

Definition vadd (a b : list Q) : list Q :=
  map (fun p => fst p + snd p) (combine a b).

Definition vscale (a : list Q) (w : Q) : list Q := map (fun v => v * w) a.

(** ** Dictionaries *)

Definition dict : Type := list (string * Q).

Definition keys (d : dict) : list string := map fst d.
Definition values (d : dict) : list Q := map snd d.

Fixpoint dict_find (d : dict) (key : string) : option Q :=
  match d with
  | [] => None
  | (k, v) :: d' => if String.eqb k key then Some v else dict_find d' key
  end.

(** [d[key]]. *)
Definition dict_getitem (d : dict) (key : string) : result Q :=
  match dict_find d key with
  | Some v => Ok v
  | None => Raise (KeyError key)
  end.

(** [d[key] = v]. *)
Fixpoint dict_setitem (d : dict) (key : string) (v : Q) : dict :=
  match d with
  | [] => [(key, v)]
  | (k, v0) :: d' =>
      if String.eqb k key then (k, v) :: d' else (k, v0) :: dict_setitem d' key v
  end.

(** [d.update(other)]. *)
Definition dict_update (d other : dict) : dict :=
  fold_left (fun acc kv => dict_setitem acc (fst kv) (snd kv)) other d.

(** [{name: value for name, value in pairs}]. *)
Definition dict_of_pairs (pairs : list (string * Q)) : dict := dict_update [] pairs.

(** ** Data frames *)

(** A timestamp is a number of nanoseconds since the epoch (pandas' own
    representation of a timezone-naive [Timestamp]); a date is a day
    number. *)
Definition Timestamp : Type := Z.
Definition Date : Type := Z.

Definition ns_per_day : Z := 86400000000000.

(** [Timestamp.date()]. *)
Definition date (t : Timestamp) : Date := (t / ns_per_day)%Z.

Definition column : Type := (string * list Q)%type.

Record DataFrame : Type :=
  { index : list Timestamp;
    columns : list column }.

Definition nrows (df : DataFrame) : nat := List.length (index df).

(** Every column has one value per index entry. *)
Definition frame_wf (df : DataFrame) : Prop :=
  Forall (fun c : column => List.length (snd c) = nrows df) (columns df).

(** [df.iloc[:, i]]. *)
Definition iloc_col (df : DataFrame) (i : nat) : result (list Q) :=
  match nth_error (columns df) i with
  | Some c => Ok (snd c)
  | None => Raise IndexError
  end.

Fixpoint setitem_cols (cols : list column) (name : string) (v : list Q) : list column :=
  match cols with
  | [] => [(name, v)]
  | (n, v0) :: cols' =>
      if String.eqb n name then (n, v) :: cols' else (n, v0) :: setitem_cols cols' name v
  end.

(** [df[name] = v]: overwrite the column of that name, or add it last. *)
Definition frame_setitem (df : DataFrame) (name : string) (v : list Q) : DataFrame :=
  {| index := index df; columns := setitem_cols (columns df) name v |}.

Fixpoint col_find (cols : list column) (name : string) : option (list Q) :=
  match cols with
  | [] => None
  | (n, v) :: cols' => if String.eqb n name then Some v else col_find cols' name
  end.

(** [df[name]]. *)
Definition frame_getitem (df : DataFrame) (name : string) : result (list Q) :=
  match col_find (columns df) name with
  | Some v => Ok v
  | None => Raise (KeyError name)
  end.

(** [df[[a, b]]]: the two named columns, in the order asked for. *)
Definition frame_select2 (df : DataFrame) (a b : string) : result DataFrame :=
  ca <- frame_getitem df a ;;
  cb <- frame_getitem df b ;;
  ret {| index := index df; columns := [(a, ca); (b, cb)] |}.

(** [df.iloc[:, 0:2]]. *)
Definition iloc_0_2 (df : DataFrame) : DataFrame :=
  {| index := index df; columns := firstn 2 (columns df) |}.

(** [df.diff(axis=1).iloc[:, 1]]: the second column minus the first, row by
    row.  (Column 0 of the difference frame is all NaN and is not read.) *)
Definition diff_axis1_iloc1 (df : DataFrame) : result (list Q) :=
  match columns df with
  | (_, c0) :: (_, c1) :: _ => Ok (vsub c1 c0)
  | _ => Raise IndexError
  end.

(** [index.min()] and [index.max()]; [None] is pandas' [NaT], the result on
    an empty index. *)
Definition index_min (ix : list Timestamp) : option Timestamp :=
  match ix with
  | [] => None
  | t :: r => Some (fold_left Z.min r t)
  end.

Definition index_max (ix : list Timestamp) : option Timestamp :=
  match ix with
  | [] => None
  | t :: r => Some (fold_left Z.max r t)
  end.

(** [a[i]] on a one-dimensional array. *)
Definition array_getitem (a : list Q) (i : nat) : result Q :=
  match nth_error a i with
  | Some v => Ok v
  | None => Raise IndexError
  end.

(** [np.dot(x.T, weights)] for [x] a list of [n]-long rows, one row per
    weight: entry [i] of the result is the sum over [j] of
    [x[j][i] * weights[j]]. *)
Fixpoint dot_T (n : nat) (x : list (list Q)) (weights : list Q) : list Q :=
  match x, weights with
  | row :: x', w :: weights' => vadd (vscale row w) (dot_T n x' weights')
  | _, _ => repeat 0 n
  end.

(** * openstf/model/split_energy.py *)

Module SplitEnergy.

Definition COEF_MAX_PCT_DIFF : Q := 3 # 10.

(** The fitting bounds [(lower, upper)]; [None] stands for ["-inf"] or
    ["inf"]. *)
Definition Bounds : Type := (option Q * option Q)%type.

(** [scipy.optimize.curve_fit(f, xdata=, ydata=, p0=, bounds=, method="trf")],
    reduced to the optimal parameters it returns (the covariance is not
    used). *)
Definition Solver : Type :=
  (list (list Q) -> list Q -> result (list Q)) ->
  list (list Q) -> list Q -> list Q -> Bounds -> result (list Q).

(** The nested function [weighted_sum(x, *args)] of [find_components]; [n] is
    the number of rows of the table, the common length of the rows of [x]. *)
Definition weighted_sum (n : nat) (x : list (list Q)) (args : list Q) : result (list Q) :=
  if negb (List.length x =? List.length args)%nat
  then Raise (Exception "Length of args should match len of x")
  else Ok (dot_T n x args).

(** [coefs[coefs < 0.1] = 0]. *)
Definition zero_small (coefs : list Q) : list Q :=
  map (fun c => if Qltb c (1 # 10) then 0 else c) coefs.

(** [(frame * w).sum(axis=1)] for a frame given by its columns. *)
Definition mul_sum_axis1 (n : nat) (cols : list column) (w : list Q) : result (list Q) :=
  if negb (List.length cols =? List.length w)%nat
  then Raise ValueError
  else Ok (dot_T n (map snd cols) w).

Definition find_components (curve_fit : Solver) (df : DataFrame) (zero_bound : bool)
  : result (DataFrame * dict) :=
  load <- iloc_col df 0 ;;
  wind_ref <- iloc_col df 1 ;;
  pv_ref <- iloc_col df 2 ;;
  let nedu_scaler := (series_max load - series_min load) / 10 in
  let p_wind_guess := 1 in
  let ppv_guess := 1 in
  let p0 := [p_wind_guess; ppv_guess]
              ++ repeat nedu_scaler (List.length (columns df) - 3) in
  let bounds : Bounds := if zero_bound then (Some 0, None) else (None, None) in
  let xdata := map snd (skipn 1 (columns df)) in
  coefs <- curve_fit (weighted_sum (nrows df)) xdata load p0 bounds ;;
  let coefs := zero_small coefs in
  hist <- weighted_sum (nrows df) xdata coefs ;;
  histp0 <- weighted_sum (nrows df) xdata p0 ;;
  let components := {| index := index df; columns := firstn 1 (columns df) |} in
  let components := frame_setitem components "Inschatting" hist in
  let components := frame_setitem components "p0" histp0 in
  c0 <- array_getitem coefs 0 ;;
  let components := frame_setitem components "Windopwek" (vscale wind_ref c0) in
  c1 <- array_getitem coefs 1 ;;
  let components := frame_setitem components "Zonne-opwek" (vscale pv_ref c1) in
  std <- mul_sum_axis1 (nrows df) (skipn 3 (columns df)) (skipn 2 coefs) ;;
  let components := frame_setitem components "StandaardVerbruik" std in
  d <- diff_axis1_iloc1 (iloc_0_2 components) ;;
  let components := frame_setitem components "Residu" (map (Qmult (-1)) d) in
  let coefdict := dict_of_pairs (combine (map fst (skipn 1 (columns df))) coefs) in
  ret (components, coefdict).

Fixpoint are_new_coefs_valid_loop (ks : list string) (new_coefs mean_coefs : dict)
  : result bool :=
  match ks with
  | [] => Ok true
  | key :: ks' =>
      m <- dict_getitem mean_coefs key ;;
      n <- dict_getitem new_coefs key ;;
      let diff := Qabs (m - n) in
      m' <- dict_getitem mean_coefs key ;;
      if Qltb (COEF_MAX_PCT_DIFF * Qabs m') diff
      then Ok false
      else are_new_coefs_valid_loop ks' new_coefs mean_coefs
  end.

Definition are_new_coefs_valid (new_coefs mean_coefs : dict) : result bool :=
  are_new_coefs_valid_loop (keys mean_coefs) new_coefs mean_coefs.

Record PredictionJob : Type := { pj_id : Z }.

(** One row of the coefficient frame that goes to SQL. *)
Record CoefRow : Type :=
  { coef_name : string;
    coef_value : Q;
    pid : Z;
    date_start : option Date;
    date_end : option Date;
    created : Z }.

Definition CoefsFrame : Type := list CoefRow.

Inductive Event : Type :=
| LogInfo (msg : string) (pid : Z)
| PostTeamsAlert (pid : Z) (coefsdf : CoefsFrame)
| WriteEnergySplittingCoefficients (coefsdf : CoefsFrame) (if_exists : string).

(** What an invocation has done so far, oldest first, and how often it has
    read the clock. *)
Record World : Type :=
  { events : list Event;
    clock_reads : nat }.

Definition emit (e : Event) : io World unit :=
  fun w => (Ok tt, {| events := events w ++ [e]; clock_reads := clock_reads w |}).

(** The reads of [ktpbase.database.DataBase] that [split_energy] performs. *)
Record DataBase : Type :=
  { get_prediction_job : Z -> result PredictionJob;
    get_input_energy_splitting : PredictionJob -> result DataFrame;
    get_energy_split_coefs : PredictionJob -> bool -> result dict }.

Section Orchestration.

Variable curve_fit : Solver.
Variable db : DataBase.
(** [utcnow_at k]: what the [k]-th call of [datetime.utcnow()] returns. *)
Variable utcnow_at : nat -> Z.

Definition utcnow : io World Z :=
  fun w => (Ok (utcnow_at (clock_reads w)),
            {| events := events w; clock_reads := S (clock_reads w) |}).

Definition convert_coefdict_to_coefsdf
  (pj : PredictionJob) (input_split_function : DataFrame) (coefdict : dict)
  : io World CoefsFrame :=
  let v_pid := pj_id pj in
  let v_date_start := option_map date (index_min (index input_split_function)) in
  let v_date_end := option_map date (index_max (index input_split_function)) in
  v_created <- utcnow ;;
  ret (map (fun kv => {| coef_name := fst kv; coef_value := snd kv;
                         pid := v_pid; date_start := v_date_start;
                         date_end := v_date_end; created := v_created |})
           (combine (keys coefdict) (values coefdict))).

Definition split_energy (pid : Z) : io World CoefsFrame :=
  pj <- lift (get_prediction_job db pid) ;;
  emit (LogInfo "Start splitting energy" (pj_id pj)) ;;
  input_split_function <- lift (get_input_energy_splitting db pj) ;;
  ' (components, coefdict) <- lift (find_components curve_fit input_split_function true) ;;
  error <- lift (sel <- frame_select2 components "load" "Inschatting" ;;
                 diff_axis1_iloc1 sel) ;;
  let mae := series_mean (map Qabs error) in
  let coefdict := dict_update coefdict [("MAE", mae)] in
  coefsdf <- convert_coefdict_to_coefsdf pj input_split_function coefdict ;;
  mean_coefs <- lift (get_energy_split_coefs db pj true) ;;
  valid <- lift (are_new_coefs_valid coefdict mean_coefs) ;;
  if negb valid then
    emit (PostTeamsAlert (pj_id pj) coefsdf) ;;
    last_coefdict <- lift (get_energy_split_coefs db pj false) ;;
    last_coefsdf <- convert_coefdict_to_coefsdf pj input_split_function last_coefdict ;;
    ret last_coefsdf
  else
    emit (WriteEnergySplittingCoefficients coefsdf "append") ;;
    emit (LogInfo "Succesfully wrote energy split coefficients to database" (pj_id pj)) ;;
    ret coefsdf.

End Orchestration.

End SplitEnergy.

(** * openstf/tasks/run_tracy.py *)

Module RunTracy.

(** A row of the [todolist] table, as the job dictionary the runner gets. *)
Record TracyJob : Type :=
  { id : Z;
    function : string;
    args : string;
    inprogress : Z }.

(** [job["inprogress"] = v]. *)
Definition set_inprogress (job : TracyJob) (v : Z) : TracyJob :=
  {| id := id job; function := function job; args := args job; inprogress := v |}.

(** The two texts the runner formats around a job. *)
Inductive Message : Type :=
| ExceptionOccured (job : TracyJob)
| SuccesfullyProcessed (job : TracyJob).

Inductive Event : Type :=
| UpdateTracyJob (job : TracyJob)
| DeleteTracyJob (job : TracyJob)
| PostTeams (msg : Message)
| LogWarning (msg : string)
| LogInfo (msg : string)
| LogError (msg : string).

(** The calls made on the database, the chat channel and the logger, oldest
    first. *)
Definition World : Type := list Event.

Definition emit (e : Event) : io World unit := fun w => (Ok tt, w ++ [e]).

(** How the [try] block of one iteration ends when it does not raise. *)
Inductive Flow : Type :=
| FallThrough
| Continue.

Fixpoint for_each {A} (body : A -> io World unit) (l : list A) : io World unit :=
  match l with
  | [] => ret tt
  | a :: l' => body a ;; for_each body l'
  end.

(** [enumerate(l)]. *)
Definition enumerate {A} (l : list A) : list (nat * A) := combine (seq 0 (List.length l)) l.

Definition str_in (s : string) (l : list string) : bool :=
  existsb (String.eqb s) l.

Section Runner.

Variable PredictionJob : Type.
(** [context.database.ktp_api.get_all_tracy_jobs(inprogress=...)]. *)
Variable get_all_tracy_jobs : Z -> list TracyJob.
(** [int(text)]. *)
Variable py_int : string -> result Z.
Variable get_prediction_job : Z -> result PredictionJob.
(** [context.logger.info()], the call without a message. *)
Variable logger_info_no_event : result unit.
(** The two task handlers; what they do to the outside world is not part of
    this model, only whether they return or raise. *)
Variable train_model_task : PredictionJob -> result unit.
Variable optimize_hyperparameters_task : PredictionJob -> result unit.

(** The body of the [try] statement. *)
Definition try_job (job : TracyJob) : io World Flow :=
  if str_in (function job) ["train_model"; "train_specific_model"] then
    lift logger_info_no_event ;;
    pid <- lift (py_int (args job)) ;;
    pj <- lift (get_prediction_job pid) ;;
    lift (train_model_task pj) ;;
    ret FallThrough
  else if str_in (function job)
            ["optimize_hyperparameters"; "optimize_hyperparameters_for_specific_pid"] then
    pid <- lift (py_int (args job)) ;;
    pj <- lift (get_prediction_job pid) ;;
    lift (optimize_hyperparameters_task pj) ;;
    ret FallThrough
  else
    emit (LogError "Unkown Tracy job") ;;
    ret Continue.

(** One iteration of the loop; the job dictionary is mutated in place, so
    each later use sees the last [inprogress] written. *)
Definition process_job (ij : nat * TracyJob) : io World unit :=
  let job := set_inprogress (snd ij) 1 in
  emit (UpdateTracyJob job) ;;
  emit (LogInfo "Process job") ;;
  ' (flow, job) <-
    try_except
      (flow <- try_job job ;; ret (flow, job))
      (fun e =>
         let job := set_inprogress job 2 in
         emit (UpdateTracyJob job) ;;
         emit (LogError "Exception occured while processing Tracy job") ;;
         emit (PostTeams (ExceptionOccured job)) ;;
         ret (FallThrough, job)) ;;
  match flow with
  | Continue => ret tt
  | FallThrough =>
      emit (LogInfo "Succesfully processed Tracy job") ;;
      emit (PostTeams (SuccesfullyProcessed job)) ;;
      emit (DeleteTracyJob job) ;;
      emit (LogInfo "Delete Tracy job")
  end.

Definition run_tracy : io World unit :=
  let tracy_jobs := get_all_tracy_jobs 0 in
  let num_jobs := List.length tracy_jobs in
  if (num_jobs =? 0)%nat then
    emit (LogWarning "No Tracy jobs to process, exit")
  else
    emit (LogInfo "Start processing Tracy jobs") ;;
    for_each process_job (enumerate tracy_jobs) ;;
    emit (LogInfo "Finished processing all Tracy jobs - Tracy out!").

End Runner.

End RunTracy.

(** * Vocabulary of the properties *)

Import SplitEnergy.

(** The check the loop makes on one key. *)
Definition key_within_bound (new_coefs mean_coefs : dict) (key : string) : Prop :=
  exists m n,
    dict_find mean_coefs key = Some m /\
    dict_find new_coefs key = Some n /\
    Qabs (m - n) <= (3 # 10) * Qabs m.

(** The starting weights for a table whose load column is [load] and which
    has [k] columns in all. *)
Definition initial_guess (load : list Q) (k : nat) : list Q :=
  [1; 1] ++ repeat ((series_max load - series_min load) / 10) (k - 3).

Definition bounds_of (zero_bound : bool) : Bounds :=
  if zero_bound then (Some 0, None) else (None, None).

(** The names [find_components] gives to the columns it adds. *)
Definition component_names : list string :=
  ["Inschatting"; "p0"; "Windopwek"; "Zonne-opwek"; "StandaardVerbruik"; "Residu"].

(** Entry [i] of a weighted sum of rows, written as the sum it is. *)
Definition weighted_entry (i : nat) (x : list (list Q)) (w : list Q) : Q :=
  Qsum (map (fun p => nth i (fst p) 0 * snd p) (combine x w)).

(** A solver that answers [coefs] whatever it is asked, to run the model on
    tables whose least-squares solution is known. *)
Definition fit_const (coefs : list Q) : Solver := fun _ _ _ _ _ => Ok coefs.

(** Two quarter-hours of load [2, 0] against a constant wind reference and no
    sun: the least-squares wind weight is [1], the solar weight stays at its
    initial guess [1]. *)
Definition table_flat_wind : DataFrame :=
  {| index := [0%Z; 900000000000%Z];
     columns := [("load", [2; 0]); ("wind", [1; 1]); ("pv", [0; 0])] |}.

(** A load that is exactly [-5 * wind + 2 * pv]. *)
Definition table_negative_wind : DataFrame :=
  {| index := [0%Z; 900000000000%Z; 1800000000000%Z];
     columns := [("load", [-3; -10; -13]); ("wind", [1; 2; 3]); ("pv", [1; 0; 1])] |}.

(** What [find_components] returns on [table_flat_wind] for the weights
    [1, 1]. *)
Definition components_flat_wind : DataFrame :=
  {| index := [0%Z; 900000000000%Z];
     columns := [("load", [2; 0]); ("Inschatting", [1; 1]); ("p0", [1; 1]);
                 ("Windopwek", [1; 1]); ("Zonne-opwek", [0; 0]);
                 ("StandaardVerbruik", [0; 0]); ("Residu", [1; -1])] |}.

(** A table with one standard profile besides wind and sun; the load spans
    [2 .. 12], so the profile's starting weight is [1]. *)
Definition table_with_profile : DataFrame :=
  {| index := [0%Z; 900000000000%Z; 1800000000000%Z];
     columns := [("load", [12; 2; 7]); ("wind", [1; 0; 1]); ("pv", [0; 1; 1]);
                 ("E1A", [1; 1; 1])] |}.

(** The rows the formatter builds from a coefficient mapping, given the time
    the clock showed. *)
Definition coef_rows (pj : PredictionJob) (input_split_function : DataFrame)
  (now : Z) (coefdict : dict) : CoefsFrame :=
  map (fun kv =>
         {| coef_name := fst kv; coef_value := snd kv; pid := pj_id pj;
            date_start := option_map date (index_min (index input_split_function));
            date_end := option_map date (index_max (index input_split_function));
            created := now |})
      coefdict.

(** The records appended to storage, and the alerts sent, in a world. *)
Definition written (w : World) : list CoefsFrame :=
  flat_map (fun e => match e with
                     | WriteEnergySplittingCoefficients c _ => [c]
                     | _ => []
                     end) (events w).

Definition alerted (w : World) : list (Z * CoefsFrame) :=
  flat_map (fun e => match e with
                     | PostTeamsAlert p c => [(p, c)]
                     | _ => []
                     end) (events w).

(** [d] is the least element of [l]. *)
Definition is_min_of (d : Z) (l : list Z) : Prop :=
  In d l /\ forall x, In x l -> (d <= x)%Z.

Definition is_max_of (d : Z) (l : list Z) : Prop :=
  In d l /\ forall x, In x l -> (x <= d)%Z.

(** A store that knows every job, serves [df] as its input table, [mean] as
    the historical mean and [last] as the last stored coefficients. *)
Definition db_example (df : DataFrame) (mean last : dict) : DataBase :=
  {| get_prediction_job := fun job_id => Ok {| pj_id := job_id |};
     get_input_energy_splitting := fun _ => Ok df;
     get_energy_split_coefs := fun _ is_mean => Ok (if is_mean then mean else last) |}.

Definition clock_example (k : nat) : Z := 1000 + Z.of_nat k.

Definition fresh_world : World := {| events := []; clock_reads := 0 |}.

(** One run on [df] with the solver answering [1, 1]. *)
Definition run_example (df : DataFrame) (mean last : dict) : result CoefsFrame * World :=
  split_energy (fit_const [1; 1]) (db_example df mean last) clock_example 7 fresh_world.

(** As [table_flat_wind], with a load that swings three times as far: the
    same least-squares weights, a mean absolute error of [3] instead of [1]. *)
Definition table_flat_wind_wide : DataFrame :=
  {| index := [0%Z; 900000000000%Z];
     columns := [("load", [4; -2]); ("wind", [1; 1]); ("pv", [0; 0])] |}.

Section TracyVocabulary.

Import RunTracy.

Variable PredictionJob : Type.
Variable py_int : string -> result Z.
Variable get_prediction_job : Z -> result PredictionJob.
Variable logger_info_no_event : result unit.
Variable train_model_task : PredictionJob -> result unit.
Variable optimize_hyperparameters_task : PredictionJob -> result unit.

(** What one iteration adds to the world. *)
Definition job_events (job : TracyJob) : list Event :=
  snd (process_job PredictionJob py_int get_prediction_job logger_info_no_event
                   train_model_task optimize_hyperparameters_task (0%nat, job) []).

(** The function names the runner has a handler for. *)
Definition known_function (name : string) : bool :=
  str_in name ["train_model"; "train_specific_model"]
  || str_in name ["optimize_hyperparameters"; "optimize_hyperparameters_for_specific_pid"].

(** The iteration's events when the handler returns, and when it raises. *)
Definition events_handler_returned (job : TracyJob) : list Event :=
  let job1 := set_inprogress job 1 in
  [UpdateTracyJob job1; LogInfo "Process job";
   LogInfo "Succesfully processed Tracy job"; PostTeams (SuccesfullyProcessed job1);
   DeleteTracyJob job1; LogInfo "Delete Tracy job"].

Definition events_handler_raised (job : TracyJob) : list Event :=
  let job1 := set_inprogress job 1 in
  let job2 := set_inprogress job1 2 in
  [UpdateTracyJob job1; LogInfo "Process job";
   UpdateTracyJob job2; LogError "Exception occured while processing Tracy job";
   PostTeams (ExceptionOccured job2);
   LogInfo "Succesfully processed Tracy job"; PostTeams (SuccesfullyProcessed job2);
   DeleteTracyJob job2; LogInfo "Delete Tracy job"].

End TracyVocabulary.

(** A training job whose argument is not a number: [int] raises inside the
    [try] block. *)
Definition job_bad_args : RunTracy.TracyJob :=
  {| RunTracy.id := 1; RunTracy.function := "train_model";
     RunTracy.args := "not a number"; RunTracy.inprogress := 0 |}.

(** A load that is exactly [3 * wind + 2 * pv], for a solver that finds
    it. *)
Definition table_exact : DataFrame :=
  {| index := [0%Z; 900000000000%Z];
     columns := [("load", [3; 2]); ("wind", [1; 0]); ("pv", [0; 1])] |}.

(** The jobs deleted, and the jobs written back, in a world. *)
Definition deleted_jobs (w : RunTracy.World) : list RunTracy.TracyJob :=
  flat_map (fun e => match e with
                     | RunTracy.DeleteTracyJob job => [job]
                     | _ => []
                     end) w.

Definition updated_jobs (w : RunTracy.World) : list RunTracy.TracyJob :=
  flat_map (fun e => match e with
                     | RunTracy.UpdateTracyJob job => [job]
                     | _ => []
                     end) w.

(** A job whose function name the runner has no handler for. *)
Definition job_unknown : RunTracy.TracyJob :=
  {| RunTracy.id := 2; RunTracy.function := "clean_database";
     RunTracy.args := "307"; RunTracy.inprogress := 0 |}.

(** * Properties *)

(** ** Auxiliary facts on numbers and lists *)

Lemma Qltb_lt (x y : Q) : Qltb x y = true <-> x < y.
Proof.
  unfold Qltb. rewrite negb_true_iff. split; intro H.
  - apply Qnot_le_lt. intro Hle. apply Qle_bool_iff in Hle. congruence.
  - destruct (Qle_bool y x) eqn:E; [|reflexivity].
    apply Qle_bool_iff in E. exfalso. exact (Qlt_not_le _ _ H E).
Qed.

Lemma Qltb_ge (x y : Q) : Qltb x y = false <-> y <= x.
Proof.
  unfold Qltb. rewrite negb_false_iff. apply Qle_bool_iff.
Qed.

Lemma dict_find_in_keys (d : dict) (key : string) :
  In key (keys d) -> exists v, dict_find d key = Some v.
Proof.
  induction d as [|[k v] d IH]; simpl; [tauto|].
  intros [->|Hin].
  - rewrite String.eqb_refl. eauto.
  - destruct (String.eqb k key); eauto.
Qed.

Lemma dict_find_none (d : dict) (key : string) :
  dict_find d key = None <-> ~ In key (keys d).
Proof.
  induction d as [|[k v] d IH]; simpl; [tauto|].
  destruct (String.eqb_spec k key) as [->|Hne].
  - split; [discriminate|]. intros H. exfalso. auto.
  - rewrite IH. tauto.
Qed.

Lemma dict_find_setitem_other (d : dict) (key key' : string) (v : Q) :
  key <> key' -> dict_find (dict_setitem d key v) key' = dict_find d key'.
Proof.
  intro Hne. induction d as [|[k v0] d IH]; simpl.
  - destruct (String.eqb_spec key key'); congruence.
  - destruct (String.eqb_spec k key) as [->|Hk]; simpl.
    + destruct (String.eqb_spec key key'); congruence.
    + rewrite IH. reflexivity.
Qed.

Lemma dict_find_setitem_same (d : dict) (key : string) (v : Q) :
  dict_find (dict_setitem d key v) key = Some v.
Proof.
  induction d as [|[k v0] d IH]; simpl.
  - now rewrite String.eqb_refl.
  - destruct (String.eqb_spec k key) as [->|Hk]; simpl.
    + now rewrite String.eqb_refl.
    + destruct (String.eqb_spec k key); [contradiction|exact IH].
Qed.

(** ** The validator *)

Lemma loop_true_iff (new_coefs mean_coefs : dict) (ks : list string) :
  are_new_coefs_valid_loop ks new_coefs mean_coefs = Ok true <->
  forall key, In key ks -> key_within_bound new_coefs mean_coefs key.
Proof.
  induction ks as [|k ks IH]; cbn [are_new_coefs_valid_loop In bind result_monad].
  - split; [intros _ key []|reflexivity].
  - unfold dict_getitem.
    destruct (dict_find mean_coefs k) as [m|] eqn:Em; cbn [bind result_monad].
    2:{ split; [discriminate|]. intro H.
        destruct (H k (or_introl eq_refl)) as (m & n & Hm & _). congruence. }
    destruct (dict_find new_coefs k) as [n|] eqn:En; cbn [bind result_monad].
    2:{ split; [discriminate|]. intro H.
        destruct (H k (or_introl eq_refl)) as (m' & n & _ & Hn & _). congruence. }
    destruct (Qltb (COEF_MAX_PCT_DIFF * Qabs m) (Qabs (m - n))) eqn:Ecmp.
    + split; [discriminate|]. intro H.
      destruct (H k (or_introl eq_refl)) as (m' & n' & Hm & Hn & Hle).
      assert (m' = m) by congruence. assert (n' = n) by congruence. subst.
      apply Qltb_lt in Ecmp. exfalso. exact (Qlt_not_le _ _ Ecmp Hle).
    + rewrite IH. apply Qltb_ge in Ecmp. split.
      * intros H key [<-|Hin]; [|auto]. exists m, n. auto.
      * intros H key Hin. auto.
Qed.

Lemma loop_raise_iff (new_coefs mean_coefs : dict) (ks : list string) (e : exn) :
  incl ks (keys mean_coefs) ->
  are_new_coefs_valid_loop ks new_coefs mean_coefs = Raise e <->
  exists before key after,
    ks = before ++ key :: after /\
    e = KeyError key /\
    dict_find new_coefs key = None /\
    forall k, In k before -> key_within_bound new_coefs mean_coefs k.
Proof.
  induction ks as [|k ks IH]; intro Hincl;
    cbn [are_new_coefs_valid_loop bind result_monad].
  - split; [discriminate|].
    intros (before & key & after & Heq & _). destruct before; discriminate.
  - assert (Hk : In k (keys mean_coefs)) by (apply Hincl; left; reflexivity).
    assert (Hks : incl ks (keys mean_coefs))
      by (intros x Hx; apply Hincl; right; exact Hx).
    destruct (dict_find_in_keys _ _ Hk) as [m Em].
    unfold dict_getitem. rewrite Em. cbn [bind result_monad].
    destruct (dict_find new_coefs k) as [n|] eqn:En; cbn [bind result_monad].
    + destruct (Qltb (COEF_MAX_PCT_DIFF * Qabs m) (Qabs (m - n))) eqn:Ecmp.
      * split; [discriminate|].
        intros (before & key & after & Heq & _ & Hnone & Hbefore).
        destruct before as [|b before]; injection Heq as <- Hrest.
        -- congruence.
        -- destruct (Hbefore k (or_introl eq_refl)) as (m' & n' & Hm & Hn & Hle).
           assert (m' = m) by congruence. assert (n' = n) by congruence. subst.
           apply Qltb_lt in Ecmp. exfalso. exact (Qlt_not_le _ _ Ecmp Hle).
      * rewrite (IH Hks). apply Qltb_ge in Ecmp. split.
        -- intros (before & key & after & -> & -> & Hnone & Hbefore).
           exists (k :: before), key, after. repeat split; auto.
           intros k' [<-|Hin]; [exists m, n|]; auto.
        -- intros (before & key & after & Heq & -> & Hnone & Hbefore).
           destruct before as [|b before]; injection Heq as <- Hrest.
           ++ congruence.
           ++ exists before, key, after. repeat split; auto.
              intros k' Hin. apply Hbefore. right. exact Hin.
    + split.
      * intro H. injection H as <-. exists [], k, ks. repeat split; auto.
        intros k' [].
      * intros (before & key & after & Heq & -> & Hnone & Hbefore).
        destruct before as [|b before]; injection Heq as <- Hrest.
        -- reflexivity.
        -- destruct (Hbefore k (or_introl eq_refl)) as (m' & n' & _ & Hn & _).
           congruence.
Qed.

Lemma loop_returns (new_coefs mean_coefs : dict) (ks : list string) :
  incl ks (keys mean_coefs) ->
  (forall key, In key ks -> In key (keys new_coefs)) ->
  exists b, are_new_coefs_valid_loop ks new_coefs mean_coefs = Ok b.
Proof.
  induction ks as [|k ks IH]; intros Hincl Hsub;
    cbn [are_new_coefs_valid_loop bind result_monad].
  - eauto.
  - assert (Hk : In k (keys mean_coefs)) by (apply Hincl; left; reflexivity).
    destruct (dict_find_in_keys _ _ Hk) as [m Em].
    destruct (dict_find_in_keys _ _ (Hsub k (or_introl eq_refl))) as [n En].
    unfold dict_getitem. rewrite Em, En. cbn [bind result_monad].
    destruct (Qltb _ _); [eauto|].
    apply IH.
    + intros x Hx. apply Hincl. right. exact Hx.
    + intros x Hx. apply Hsub. right. exact Hx.
Qed.

Lemma loop_ignores_other_keys (new_coefs new_coefs' mean_coefs : dict) (ks : list string) :
  (forall key, In key ks -> dict_find new_coefs' key = dict_find new_coefs key) ->
  are_new_coefs_valid_loop ks new_coefs' mean_coefs =
  are_new_coefs_valid_loop ks new_coefs mean_coefs.
Proof.
  induction ks as [|k ks IH]; intro Hsame;
    cbn [are_new_coefs_valid_loop bind result_monad]; [reflexivity|].
  unfold dict_getitem. rewrite (Hsame k (or_introl eq_refl)).
  rewrite IH; [reflexivity|]. intros key Hin. apply Hsame. right. exact Hin.
Qed.

(** C5: [are_new_coefs_valid] returns [True] exactly when every key of
    [mean_coefs] has [|mean_coefs[key] - new_coefs[key]| <= 0.3 * |mean_coefs[key]|];
    with mean [{"a": 10}] it returns [True] for [{"a": 13}] and [False] for
    [{"a": 13.01}]; with an empty [mean_coefs] it returns [True] for every
    [new_coefs]. *)
Theorem are_new_coefs_valid_spec :
  (forall new_coefs mean_coefs,
      are_new_coefs_valid new_coefs mean_coefs = Ok true <->
      forall key, In key (keys mean_coefs) ->
                  key_within_bound new_coefs mean_coefs key)
  /\ are_new_coefs_valid [("a", 13)] [("a", 10)] = Ok true
  /\ are_new_coefs_valid [("a", 1301 # 100)] [("a", 10)] = Ok false
  /\ (forall new_coefs, are_new_coefs_valid new_coefs [] = Ok true).
Proof.
  split; [|split; [|split]].
  - intros new_coefs mean_coefs. apply loop_true_iff.
  - reflexivity.
  - reflexivity.
  - intro new_coefs. reflexivity.
Qed.

(** C10, as stated, fails: a key of [mean_coefs] missing from [new_coefs]
    does not raise when an earlier key already exceeds the bound. *)
Lemma missing_key_after_violation_returns_false :
  In "b" (keys [("a", 10); ("b", 1)])
  /\ dict_find [("a", 100)] "b" = None
  /\ are_new_coefs_valid [("a", 100)] [("a", 10); ("b", 1)] = Ok false.
Proof.
  split; [|split].
  - right. left. reflexivity.
  - reflexivity.
  - reflexivity.
Qed.

(** C10, amended: [are_new_coefs_valid] returns a boolean whenever every key
    of [mean_coefs] is a key of [new_coefs]; it raises [KeyError key] exactly
    when [key] is a key of [mean_coefs] missing from [new_coefs] and every
    key before it, in iteration order, is present and within the bound. *)
Theorem are_new_coefs_valid_lookup_error (new_coefs mean_coefs : dict) :
  ((forall key, In key (keys mean_coefs) -> In key (keys new_coefs)) ->
   exists b, are_new_coefs_valid new_coefs mean_coefs = Ok b)
  /\ (forall e,
         are_new_coefs_valid new_coefs mean_coefs = Raise e <->
         exists before key after,
           keys mean_coefs = before ++ key :: after /\
           e = KeyError key /\
           ~ In key (keys new_coefs) /\
           forall k, In k before -> key_within_bound new_coefs mean_coefs k).
Proof.
  split.
  - intro Hsub. apply loop_returns; [apply incl_refl|exact Hsub].
  - intro e. unfold are_new_coefs_valid.
    rewrite (loop_raise_iff new_coefs mean_coefs (keys mean_coefs) e (incl_refl _)).
    split; intros (before & key & after & H1 & H2 & H3 & H4);
      exists before, key, after; repeat split; auto;
      apply dict_find_none; exact H3.
Qed.

Lemma are_new_coefs_valid_lookup_error_witness :
  are_new_coefs_valid [("a", 10)] [("a", 10); ("b", 1)] = Raise (KeyError "b").
Proof.
  apply (proj2 (are_new_coefs_valid_lookup_error [("a", 10)] [("a", 10); ("b", 1)])).
  exists ["a"], "b", []. repeat split.
  - intros [H|[]]. discriminate.
  - intros k [<-|[]]. exists 10, 10. repeat split; discriminate.
Defined.

(** C4, amended: the validator looks up exactly the keys of [mean_coefs] in
    the coefficient set; when ["MAE"] is not one of them, adding the MAE
    entry, whatever its value, does not change the outcome. *)
Theorem mae_ignored_without_mae_history (coefdict mean_coefs : dict) (mae : Q) :
  ~ In "MAE" (keys mean_coefs) ->
  are_new_coefs_valid (dict_update coefdict [("MAE", mae)]) mean_coefs =
  are_new_coefs_valid coefdict mean_coefs.
Proof.
  intro Hnot. apply loop_ignores_other_keys.
  intros key Hin. cbn [dict_update fold_left fst snd].
  apply dict_find_setitem_other. intros <-. contradiction.
Qed.

Lemma mae_ignored_without_mae_history_witness :
  are_new_coefs_valid (dict_update [("wind", 1); ("pv", 1)] [("MAE", 5)])
                      [("wind", 1); ("pv", 1)] =
  are_new_coefs_valid [("wind", 1); ("pv", 1)] [("wind", 1); ("pv", 1)].
Proof.
  apply (mae_ignored_without_mae_history [("wind", 1); ("pv", 1)]
                                         [("wind", 1); ("pv", 1)] 5).
  cbn. intros [H|[H|[]]]; discriminate.
Defined.

(** ** The splitter *)

Lemma zero_small_length (coefs : list Q) :
  List.length (zero_small coefs) = List.length coefs.
Proof. apply length_map. Qed.

Lemma weighted_sum_ok (n : nat) (x : list (list Q)) (w r : list Q) :
  weighted_sum n x w = Ok r -> List.length x = List.length w /\ r = dot_T n x w.
Proof.
  unfold weighted_sum. destruct (Nat.eqb_spec (List.length x) (List.length w)); simpl.
  - intro H. injection H as <-. auto.
  - discriminate.
Qed.

(** What a successful call of [find_components] went through. *)
Lemma find_components_inv (curve_fit : Solver) (df : DataFrame) (zero_bound : bool)
  (components : DataFrame) (coefdict : dict) :
  find_components curve_fit df zero_bound = Ok (components, coefdict) ->
  exists n0 load n1 wind_ref n2 pv_ref rest fitted d,
    let xdata := wind_ref :: pv_ref :: map snd rest in
    let p0 := initial_guess load (List.length (columns df)) in
    let coefs := zero_small fitted in
    let c5 :=
      frame_setitem
        (frame_setitem
           (frame_setitem
              (frame_setitem
                 (frame_setitem {| index := index df; columns := [(n0, load)] |}
                                "Inschatting" (dot_T (nrows df) xdata coefs))
                 "p0" (dot_T (nrows df) xdata p0))
              "Windopwek" (vscale wind_ref (nth 0 coefs 0)))
           "Zonne-opwek" (vscale pv_ref (nth 1 coefs 0)))
        "StandaardVerbruik" (dot_T (nrows df) (map snd rest) (skipn 2 coefs)) in
    columns df = (n0, load) :: (n1, wind_ref) :: (n2, pv_ref) :: rest /\
    curve_fit (weighted_sum (nrows df)) xdata load p0 (bounds_of zero_bound) = Ok fitted /\
    List.length fitted = S (S (List.length rest)) /\
    diff_axis1_iloc1 (iloc_0_2 c5) = Ok d /\
    components = frame_setitem c5 "Residu" (map (Qmult (-1)) d) /\
    coefdict = dict_of_pairs (combine (n1 :: n2 :: map fst rest) coefs).
Proof.
  unfold find_components, iloc_col.
  destruct df as [ix cols]. cbn [columns index nrows].
  destruct cols as [|[n0 load] [|[n1 wind_ref] [|[n2 pv_ref] rest]]];
    cbn [nth_error bind result_monad snd]; try discriminate.
  cbn [skipn map snd fst firstn].
  change (if zero_bound then (Some 0, None) else (None, None))
    with (bounds_of zero_bound).
  match goal with
  | |- context [curve_fit ?f ?x ?y ?p ?b] =>
      destruct (curve_fit f x y p b) as [fitted|] eqn:Efit
  end; cbn [bind result_monad]; [|discriminate].
  destruct (weighted_sum _ _ (zero_small fitted)) as [hist|] eqn:Ehist;
    cbn [bind result_monad]; [|discriminate].
  apply weighted_sum_ok in Ehist. destruct Ehist as [Hlen ->].
  rewrite zero_small_length in Hlen. cbn [List.length map] in Hlen.
  rewrite length_map in Hlen.
  destruct (weighted_sum _ _ (_ ++ _)) as [histp0|] eqn:Ep0;
    cbn [bind result_monad]; [|discriminate].
  apply weighted_sum_ok in Ep0. destruct Ep0 as [_ ->].
  destruct fitted as [|f0 [|f1 fitted]]; try discriminate.
  cbn [zero_small map array_getitem nth_error bind result_monad skipn].
  unfold mul_sum_axis1.
  destruct (negb _) eqn:Eneg; cbn [bind result_monad]; [discriminate|].
  match goal with
  | |- context [diff_axis1_iloc1 ?c] => destruct (diff_axis1_iloc1 c) as [d|] eqn:Ed
  end; cbn [bind result_monad ret]; [|discriminate].
  intro H. injection H as <- <-.
  exists n0, load, n1, wind_ref, n2, pv_ref, rest, (f0 :: f1 :: fitted), d.
  cbn zeta. cbn [zero_small map nth skipn].
  repeat split; try reflexivity; try assumption.
  symmetry. exact Hlen.
Qed.

Lemma vsub_length (a b : list Q) :
  List.length (vsub a b) = Nat.min (List.length a) (List.length b).
Proof. unfold vsub. now rewrite length_map, length_combine. Qed.

Lemma vadd_length (a b : list Q) :
  List.length (vadd a b) = Nat.min (List.length a) (List.length b).
Proof. unfold vadd. now rewrite length_map, length_combine. Qed.

Lemma vscale_length (a : list Q) (w : Q) : List.length (vscale a w) = List.length a.
Proof. apply length_map. Qed.

Lemma dot_T_length (n : nat) (x : list (list Q)) (w : list Q) :
  Forall (fun row => List.length row = n) x -> List.length (dot_T n x w) = n.
Proof.
  intro Hx. revert w. induction Hx as [|row x Hrow Hx IH]; intro w.
  - simpl. apply repeat_length.
  - destruct w as [|a w]; simpl; [apply repeat_length|].
    rewrite vadd_length, vscale_length, Hrow, IH. apply Nat.min_id.
Qed.

Lemma nth_error_vsub (a b : list Q) (i : nat) (r : Q) :
  nth_error (vsub a b) i = Some r ->
  exists x y, nth_error a i = Some x /\ nth_error b i = Some y /\ r = x - y.
Proof.
  revert b i. induction a as [|x a IH]; intros [|y b] [|i]; simpl; try discriminate.
  - intro H. injection H as <-. eauto.
  - apply IH.
Qed.

Lemma nth_vadd (a b : list Q) (i : nat) :
  (i < List.length a)%nat -> (i < List.length b)%nat ->
  nth i (vadd a b) 0 = nth i a 0 + nth i b 0.
Proof.
  revert b i. induction a as [|x a IH]; intros [|y b] [|i]; simpl; try lia.
  - reflexivity.
  - intros Ha Hb. apply IH; lia.
Qed.

Lemma nth_vscale (a : list Q) (w : Q) (i : nat) :
  (i < List.length a)%nat -> nth i (vscale a w) 0 = nth i a 0 * w.
Proof.
  revert i. induction a as [|x a IH]; intros [|i]; simpl; try lia.
  - reflexivity.
  - intro Ha. apply IH. lia.
Qed.

Lemma fold_left_Qplus_acc (l : list Q) (acc : Q) :
  fold_left Qplus l acc == acc + fold_left Qplus l 0.
Proof.
  revert acc. induction l as [|v l IH]; intro acc; simpl.
  - ring.
  - rewrite (IH (acc + v)), (IH (0 + v)). ring.
Qed.

Lemma Qsum_cons (v : Q) (l : list Q) : Qsum (v :: l) == v + Qsum l.
Proof.
  unfold Qsum. simpl. rewrite fold_left_Qplus_acc. ring.
Qed.

(** Row by row, [dot_T] is the weighted sum of the rows' entries. *)
Lemma dot_T_nth (n : nat) (x : list (list Q)) (w : list Q) (i : nat) :
  Forall (fun row => List.length row = n) x -> (i < n)%nat ->
  nth i (dot_T n x w) 0 == weighted_entry i x w.
Proof.
  intros Hx Hi. revert w. induction Hx as [|row x Hrow Hx IH]; intro w.
  - simpl. rewrite nth_repeat. reflexivity.
  - destruct w as [|a w]; simpl.
    + rewrite nth_repeat. reflexivity.
    + rewrite nth_vadd.
      * rewrite nth_vscale by lia. unfold weighted_entry. cbn [combine map fst snd].
        rewrite Qsum_cons. rewrite IH. reflexivity.
      * rewrite vscale_length. lia.
      * rewrite dot_T_length by assumption. lia.
Qed.

Lemma setitem_cols_head (n0 name : string) (v0 v : list Q) (cols : list column) :
  String.eqb n0 name = false ->
  setitem_cols ((n0, v0) :: cols) name v = (n0, v0) :: setitem_cols cols name v.
Proof. intro H. cbn [setitem_cols]. now rewrite H. Qed.

Lemma col_find_setitem_same (cols : list column) (name : string) (v : list Q) :
  col_find (setitem_cols cols name v) name = Some v.
Proof.
  induction cols as [|[n v0] cols IH]; simpl.
  - now rewrite String.eqb_refl.
  - destruct (String.eqb_spec n name) as [->|Hn]; simpl.
    + now rewrite String.eqb_refl.
    + destruct (String.eqb_spec n name); [contradiction|exact IH].
Qed.

Lemma col_find_setitem_other (cols : list column) (name name' : string) (v : list Q) :
  name <> name' -> col_find (setitem_cols cols name v) name' = col_find cols name'.
Proof.
  intro Hne. induction cols as [|[n v0] cols IH]; simpl.
  - destruct (String.eqb_spec name name'); congruence.
  - destruct (String.eqb_spec n name) as [->|Hn]; simpl.
    + destruct (String.eqb_spec name name'); congruence.
    + now rewrite IH.
Qed.

Lemma frame_getitem_setitem_same (df : DataFrame) (name : string) (v : list Q) :
  frame_getitem (frame_setitem df name v) name = Ok v.
Proof.
  unfold frame_getitem, frame_setitem. cbn [columns].
  now rewrite col_find_setitem_same.
Qed.

Lemma frame_getitem_setitem_other (df : DataFrame) (name name' : string) (v : list Q) :
  name <> name' ->
  frame_getitem (frame_setitem df name v) name' = frame_getitem df name'.
Proof.
  intro Hne. unfold frame_getitem, frame_setitem. cbn [columns].
  now rewrite col_find_setitem_other.
Qed.

Lemma frame_wf_columns (df : DataFrame) (n0 : string) (load : list Q) (rest : list column) :
  frame_wf df -> columns df = (n0, load) :: rest ->
  List.length load = nrows df /\
  Forall (fun row => List.length row = nrows df) (map snd rest).
Proof.
  unfold frame_wf. intros Hwf Hcols. rewrite Hcols in Hwf.
  inversion Hwf as [|c cs Hc Hcs]; subst. split; [exact Hc|].
  apply Forall_map. exact Hcs.
Qed.

(** C1, as stated, fails: on [table_flat_wind] the first row has load [2],
    estimate [1] and residual [1], which is not [estimate - load = -1]. *)
Lemma residual_is_not_estimate_minus_load :
  find_components (fit_const [1; 1]) table_flat_wind true
  = Ok (components_flat_wind, [("wind", 1); ("pv", 1)])
  /\ frame_getitem components_flat_wind "load" = Ok [2; 0]
  /\ frame_getitem components_flat_wind "Inschatting" = Ok [1; 1]
  /\ frame_getitem components_flat_wind "Residu" = Ok [1; -1]
  /\ ~ 1 == 1 - 2.
Proof.
  repeat split; discriminate.
Qed.

(** C1, amended: when the table's first column is not named like one of the
    columns [find_components] adds (it is the load column, named ["load"] in
    [split_energy]), every row of the frame returned has
    [residual == load - estimate]; the three columns have one entry per row
    of the input table. *)
Theorem residual_is_load_minus_estimate
  (curve_fit : Solver) (df : DataFrame) (zero_bound : bool)
  (components : DataFrame) (coefdict : dict) :
  frame_wf df ->
  (forall name, In name (map fst (firstn 1 (columns df))) ->
                ~ In name component_names) ->
  find_components curve_fit df zero_bound = Ok (components, coefdict) ->
  exists load estimate residual,
    iloc_col df 0 = Ok load
    /\ iloc_col components 0 = Ok load
    /\ frame_getitem components "Inschatting" = Ok estimate
    /\ frame_getitem components "Residu" = Ok residual
    /\ index components = index df
    /\ List.length load = nrows df
    /\ List.length estimate = nrows df
    /\ List.length residual = nrows df
    /\ forall i l e r,
        nth_error load i = Some l ->
        nth_error estimate i = Some e ->
        nth_error residual i = Some r ->
        r == l - e.
Proof.
  intros Hwf Hname Hfc.
  destruct (find_components_inv _ _ _ _ _ Hfc)
    as (n0 & load & n1 & wind_ref & n2 & pv_ref & rest & fitted & d & H).
  cbn zeta in H. destruct H as (Hcols & _ & _ & Hd & -> & _).
  assert (Hn0 : forall name, In name component_names -> String.eqb n0 name = false).
  { intros name Hin. apply String.eqb_neq. intros <-.
    apply (Hname n0); [rewrite Hcols; left; reflexivity|exact Hin]. }
  unfold iloc_0_2, diff_axis1_iloc1, frame_setitem in Hd.
  cbn [columns index] in Hd.
  rewrite !setitem_cols_head in Hd by (apply Hn0; cbn; tauto).
  cbn in Hd. injection Hd as <-.
  destruct (frame_wf_columns _ _ _ _ Hwf Hcols) as [Hload Hrows].
  cbn [map snd] in Hrows.
  set (hist := dot_T (nrows df) (wind_ref :: pv_ref :: map snd rest) (zero_small fitted)).
  assert (Hhist : List.length hist = nrows df) by (apply dot_T_length; exact Hrows).
  exists load, hist, (map (Qmult (-1)) (vsub hist load)).
  split; [unfold iloc_col; rewrite Hcols; reflexivity|].
  split.
  { unfold iloc_col, frame_setitem. cbn [columns index].
    rewrite !setitem_cols_head by (apply Hn0; cbn; tauto). reflexivity. }
  split.
  { rewrite !frame_getitem_setitem_other by discriminate.
    apply frame_getitem_setitem_same. }
  split; [apply frame_getitem_setitem_same|].
  split; [reflexivity|]. split; [exact Hload|]. split; [exact Hhist|].
  split.
  - rewrite length_map, vsub_length, Hhist, Hload. apply Nat.min_id.
  - intros i l e r Hl He Hr.
    rewrite nth_error_map in Hr.
    destruct (nth_error (vsub hist load) i) as [v|] eqn:Ev; [|discriminate].
    injection Hr as <-.
    destruct (nth_error_vsub _ _ _ _ Ev) as (x & y & Hx & Hy & ->).
    assert (x = e) by congruence. assert (y = l) by congruence. subst. ring.
Qed.

Lemma residual_is_load_minus_estimate_witness :
  frame_wf table_flat_wind
  /\ find_components (fit_const [1; 1]) table_flat_wind true
     = Ok (components_flat_wind, [("wind", 1); ("pv", 1)])
  /\ exists load estimate residual,
      iloc_col table_flat_wind 0 = Ok load
      /\ iloc_col components_flat_wind 0 = Ok load
      /\ frame_getitem components_flat_wind "Inschatting" = Ok estimate
      /\ frame_getitem components_flat_wind "Residu" = Ok residual
      /\ index components_flat_wind = index table_flat_wind
      /\ List.length load = nrows table_flat_wind
      /\ List.length estimate = nrows table_flat_wind
      /\ List.length residual = nrows table_flat_wind
      /\ forall i l e r,
          nth_error load i = Some l ->
          nth_error estimate i = Some e ->
          nth_error residual i = Some r ->
          r == l - e.
Proof.
  assert (Hwf : frame_wf table_flat_wind) by (repeat constructor).
  split; [exact Hwf|]. split; [reflexivity|].
  apply (residual_is_load_minus_estimate (fit_const [1; 1]) table_flat_wind true
           components_flat_wind [("wind", 1); ("pv", 1)]).
  - exact Hwf.
  - intros name [<-|[]] Hin. cbn in Hin.
    repeat (destruct Hin as [Hin|Hin]; [discriminate|]). exact Hin.
  - reflexivity.
Defined.

(** C3: the zeroing step tests the weight itself, not its absolute value: a
    weight below [0.1] becomes [0], negative weights of any size included;
    on [table_negative_wind], fitted without the zero bound, the wind weight
    [-5] is reported as [0]. *)
Theorem negative_weight_is_zeroed :
  (forall c, c < 1 # 10 -> zero_small [c] = [0])
  /\ (forall c, 1 # 10 <= c -> zero_small [c] = [c])
  /\ zero_small [-5; 2] = [0; 2]
  /\ exists components,
      find_components (fit_const [-5; 2]) table_negative_wind false
      = Ok (components, [("wind", 0); ("pv", 2)]).
Proof.
  split; [|split; [|split]].
  - intros c Hc. unfold zero_small. cbn [map].
    apply Qltb_lt in Hc. now rewrite Hc.
  - intros c Hc. unfold zero_small. cbn [map].
    apply Qltb_ge in Hc. now rewrite Hc.
  - reflexivity.
  - eexists. reflexivity.
Qed.

Lemma baseline_column (curve_fit : Solver) (df : DataFrame) (zero_bound : bool)
  (components : DataFrame) (coefdict : dict) :
  find_components curve_fit df zero_bound = Ok (components, coefdict) ->
  exists n0 load refs fitted,
    columns df = (n0, load) :: refs
    /\ (2 <= List.length refs)%nat
    /\ curve_fit (weighted_sum (nrows df)) (map snd refs) load
         (initial_guess load (List.length (columns df))) (bounds_of zero_bound)
       = Ok fitted
    /\ frame_getitem components "p0"
       = Ok (dot_T (nrows df) (map snd refs)
               (initial_guess load (List.length (columns df)))).
Proof.
  intro Hfc.
  destruct (find_components_inv _ _ _ _ _ Hfc)
    as (n0 & load & n1 & wind_ref & n2 & pv_ref & rest & fitted & d & H).
  cbn zeta in H. destruct H as (Hcols & Hfit & _ & _ & -> & _).
  exists n0, load, ((n1, wind_ref) :: (n2, pv_ref) :: rest), fitted.
  split; [exact Hcols|]. split; [simpl; lia|]. split; [exact Hfit|].
  rewrite !frame_getitem_setitem_other by discriminate.
  apply frame_getitem_setitem_same.
Qed.

(** C8: the starting weights handed to the solver are [1] for the wind and
    solar references and [(max(load) - min(load)) / 10] for each of the
    [k - 3] other columns; the ["p0"] column is, row by row, the weighted sum
    of the reference columns with these weights, whatever the solver
    returned. *)
Theorem baseline_from_initial_guess
  (curve_fit : Solver) (df : DataFrame) (zero_bound : bool)
  (components : DataFrame) (coefdict : dict) :
  frame_wf df ->
  find_components curve_fit df zero_bound = Ok (components, coefdict) ->
  exists load fitted baseline,
    let k := List.length (columns df) in
    let scale := (series_max load - series_min load) / 10 in
    let p0 := [1; 1] ++ repeat scale (k - 3) in
    let refs := map snd (skipn 1 (columns df)) in
    iloc_col df 0 = Ok load
    /\ (3 <= k)%nat
    /\ List.length p0 = List.length refs
    /\ curve_fit (weighted_sum (nrows df)) refs load p0 (bounds_of zero_bound) = Ok fitted
    /\ frame_getitem components "p0" = Ok baseline
    /\ List.length baseline = nrows df
    /\ (forall i, (i < nrows df)%nat -> nth i baseline 0 == weighted_entry i refs p0)
    /\ (forall curve_fit' zero_bound' components' coefdict',
           find_components curve_fit' df zero_bound' = Ok (components', coefdict') ->
           frame_getitem components' "p0" = Ok baseline).
Proof.
  intros Hwf Hfc.
  destruct (baseline_column _ _ _ _ _ Hfc)
    as (n0 & load & refs & fitted & Hcols & Hrefs & Hfit & Hp0).
  destruct (frame_wf_columns _ _ _ _ Hwf Hcols) as [_ Hrows].
  exists load, fitted,
    (dot_T (nrows df) (map snd refs) (initial_guess load (List.length (columns df)))).
  cbn zeta. unfold iloc_col. rewrite Hcols in *. cbn [skipn nth_error snd].
  unfold column in *.
  split; [reflexivity|]. split; [cbn [List.length]; lia|]. split.
  { cbn [List.length app]. rewrite repeat_length, length_map. lia. }
  split; [exact Hfit|]. split; [exact Hp0|]. split; [now apply dot_T_length|].
  split.
  - intros i Hi. apply dot_T_nth; assumption.
  - intros curve_fit' zero_bound' components' coefdict' Hfc'.
    destruct (baseline_column _ _ _ _ _ Hfc')
      as (n0' & load' & refs' & fitted' & Hcols' & _ & _ & Hp0').
    rewrite Hcols in Hcols', Hp0'. injection Hcols' as <- <- <-. exact Hp0'.
Qed.

Lemma baseline_from_initial_guess_witness :
  frame_wf table_with_profile
  /\ exists components coefdict baseline,
      find_components (fit_const [3; 2; 4]) table_with_profile true
      = Ok (components, coefdict)
      /\ frame_getitem components "p0" = Ok baseline
      /\ List.length baseline = nrows table_with_profile
      /\ forall i, (i < nrows table_with_profile)%nat ->
           nth i baseline 0
           == weighted_entry i [[1; 0; 1]; [0; 1; 1]; [1; 1; 1]]
                ([1; 1] ++ repeat ((12 - 2) / 10) (4 - 3)).
Proof.
  assert (Hwf : frame_wf table_with_profile) by (repeat constructor).
  split; [exact Hwf|].
  destruct (find_components (fit_const [3; 2; 4]) table_with_profile true)
    as [[components coefdict]|e] eqn:Hfc; [|discriminate].
  destruct (baseline_from_initial_guess _ _ _ _ _ Hwf Hfc)
    as (load & fitted & baseline & H).
  cbn zeta in H. destruct H as (Hload & _ & _ & _ & Hp0 & Hlen & Hrow & _).
  injection Hload as <-.
  exists components, coefdict, baseline. auto.
Defined.

(** ** The formatter and the orchestrator *)

Lemma combine_keys_values (d : dict) : combine (keys d) (values d) = d.
Proof.
  induction d as [|[k v] d IH]; simpl; [reflexivity|]. now rewrite IH.
Qed.

Lemma convert_run (utcnow_at : nat -> Z) (pj : PredictionJob) (df : DataFrame)
  (coefdict : dict) (w : World) :
  convert_coefdict_to_coefsdf utcnow_at pj df coefdict w =
  (Ok (coef_rows pj df (utcnow_at (clock_reads w)) coefdict),
   {| events := events w; clock_reads := S (clock_reads w) |}).
Proof.
  unfold convert_coefdict_to_coefsdf, utcnow, coef_rows.
  cbn [bind ret io_monad]. now rewrite combine_keys_values.
Qed.

Lemma date_monotone (a b : Timestamp) : (a <= b)%Z -> (date a <= date b)%Z.
Proof.
  intro H. unfold date. apply Z.div_le_mono; [reflexivity|exact H].
Qed.

Lemma fold_min_spec (r : list Z) (t : Z) :
  is_min_of (fold_left Z.min r t) (t :: r).
Proof.
  revert t. induction r as [|x r IH]; intro t; simpl.
  - split; [left; reflexivity|]. intros y [<-|[]]. lia.
  - destruct (IH (Z.min t x)) as [Hin Hle]. split.
    + destruct Hin as [Heq|Hin]; [|right; right; exact Hin].
      rewrite <- Heq. destruct (Z.min_spec t x) as [[_ ->]|[_ ->]]; simpl; auto.
    + intros y [<-|[<-|Hy]].
      * etransitivity; [apply Hle; left; reflexivity|]. apply Z.le_min_l.
      * etransitivity; [apply Hle; left; reflexivity|]. apply Z.le_min_r.
      * apply Hle. right. exact Hy.
Qed.

Lemma fold_max_spec (r : list Z) (t : Z) :
  is_max_of (fold_left Z.max r t) (t :: r).
Proof.
  revert t. induction r as [|x r IH]; intro t; simpl.
  - split; [left; reflexivity|]. intros y [<-|[]]. lia.
  - destruct (IH (Z.max t x)) as [Hin Hle]. split.
    + destruct Hin as [Heq|Hin]; [|right; right; exact Hin].
      rewrite <- Heq. destruct (Z.max_spec t x) as [[_ ->]|[_ ->]]; simpl; auto.
    + intros y [<-|[<-|Hy]].
      * etransitivity; [|apply Hle; left; reflexivity]. apply Z.le_max_l.
      * etransitivity; [|apply Hle; left; reflexivity]. apply Z.le_max_r.
      * apply Hle. right. exact Hy.
Qed.

(** The date of the earliest timestamp is the earliest date. *)
Lemma date_of_min (ix : list Timestamp) (t : Timestamp) :
  index_min ix = Some t -> is_min_of (date t) (map date ix).
Proof.
  destruct ix as [|t0 r]; [discriminate|]. intro H. injection H as <-.
  destruct (fold_min_spec r t0) as [Hin Hle]. split.
  - apply in_map. exact Hin.
  - intros d Hd. apply in_map_iff in Hd. destruct Hd as (x & <- & Hx).
    apply date_monotone. apply Hle. exact Hx.
Qed.

Lemma date_of_max (ix : list Timestamp) (t : Timestamp) :
  index_max ix = Some t -> is_max_of (date t) (map date ix).
Proof.
  destruct ix as [|t0 r]; [discriminate|]. intro H. injection H as <-.
  destruct (fold_max_spec r t0) as [Hin Hle]. split.
  - apply in_map. exact Hin.
  - intros d Hd. apply in_map_iff in Hd. destruct Hd as (x & <- & Hx).
    apply date_monotone. apply Hle. exact Hx.
Qed.

(** C6: the formatter yields one row per coefficient entry, in the mapping's
    order; every row carries the job's id, the least date of the table's
    index as start and the greatest as end (both NaT on an empty index); a
    mapping with two entries yields two rows. *)
Theorem formatter_shape (utcnow_at : nat -> Z) (pj : PredictionJob)
  (input_table : DataFrame) (coefdict : dict) (w : World) :
  exists rows w',
    convert_coefdict_to_coefsdf utcnow_at pj input_table coefdict w = (Ok rows, w')
    /\ events w' = events w
    /\ List.length rows = List.length coefdict
    /\ map coef_name rows = keys coefdict
    /\ map coef_value rows = values coefdict
    /\ (forall r, In r rows ->
          pid r = pj_id pj
          /\ match index input_table with
             | [] => date_start r = None /\ date_end r = None
             | _ :: _ =>
                 exists dmin dmax,
                   date_start r = Some dmin /\ date_end r = Some dmax
                   /\ is_min_of dmin (map date (index input_table))
                   /\ is_max_of dmax (map date (index input_table))
             end)
    /\ exists r1 r2,
        fst (convert_coefdict_to_coefsdf utcnow_at pj input_table
               [("a", 1); ("b", 2)] w) = Ok [r1; r2].
Proof.
  eexists. eexists. split; [apply convert_run|]. cbn [events].
  split; [reflexivity|]. split; [apply length_map|].
  split; [unfold coef_rows, keys; rewrite map_map; reflexivity|].
  split; [unfold coef_rows, values; rewrite map_map; reflexivity|].
  split.
  - intros r Hr. unfold coef_rows in Hr. apply in_map_iff in Hr.
    destruct Hr as (kv & <- & _). cbn [pid date_start date_end].
    split; [reflexivity|].
    destruct (index input_table) as [|t0 ix] eqn:Eix; [split; reflexivity|].
    destruct (index_min (t0 :: ix)) as [tmin|] eqn:Emin; [|discriminate].
    destruct (index_max (t0 :: ix)) as [tmax|] eqn:Emax; [|discriminate].
    exists (date tmin), (date tmax). cbn [option_map].
    split; [reflexivity|]. split; [reflexivity|].
    split; [now apply date_of_min|now apply date_of_max].
  - rewrite convert_run. cbn. eauto.
Qed.

(** The whole of a run of [split_energy] whose collaborators answer and whose
    validator returns [b]. *)
Lemma split_energy_run (curve_fit : Solver) (db : DataBase) (utcnow_at : nat -> Z)
  (job_id : Z) (w : World) (pj : PredictionJob) (df components : DataFrame)
  (coefdict mean_coefs : dict) (error : list Q) (b : bool) :
  get_prediction_job db job_id = Ok pj ->
  get_input_energy_splitting db pj = Ok df ->
  find_components curve_fit df true = Ok (components, coefdict) ->
  (sel <- frame_select2 components "load" "Inschatting" ;; diff_axis1_iloc1 sel)
  = Ok error ->
  get_energy_split_coefs db pj true = Ok mean_coefs ->
  are_new_coefs_valid (dict_update coefdict [("MAE", series_mean (map Qabs error))])
                      mean_coefs = Ok b ->
  let candidate := dict_update coefdict [("MAE", series_mean (map Qabs error))] in
  let record := coef_rows pj df (utcnow_at (clock_reads w)) candidate in
  let start := LogInfo "Start splitting energy" (pj_id pj) in
  split_energy curve_fit db utcnow_at job_id w =
  if b then
    (Ok record,
     {| events := events w ++
                  [start; WriteEnergySplittingCoefficients record "append";
                   LogInfo "Succesfully wrote energy split coefficients to database"
                           (pj_id pj)];
        clock_reads := S (clock_reads w) |})
  else
    match get_energy_split_coefs db pj false with
    | Ok last_coefdict =>
        (Ok (coef_rows pj df (utcnow_at (S (clock_reads w))) last_coefdict),
         {| events := events w ++ [start; PostTeamsAlert (pj_id pj) record];
            clock_reads := S (S (clock_reads w)) |})
    | Raise e =>
        (Raise e,
         {| events := events w ++ [start; PostTeamsAlert (pj_id pj) record];
            clock_reads := S (clock_reads w) |})
    end.
Proof.
  intros Hpj Hdf Hfc Herr Hmean Hvalid. cbn zeta.
  unfold split_energy, lift, emit. cbn [bind io_monad].
  rewrite Hpj. cbn [events clock_reads]. rewrite Hdf, Hfc, Herr.
  rewrite convert_run. cbn [events clock_reads]. rewrite Hmean, Hvalid.
  destruct b; cbn [negb bind ret io_monad events clock_reads].
  - rewrite <- !app_assoc. reflexivity.
  - destruct (get_energy_split_coefs db pj false) as [last_coefdict|e].
    + rewrite convert_run. cbn [events clock_reads].
      rewrite <- !app_assoc. reflexivity.
    + rewrite <- !app_assoc. reflexivity.
Qed.

Lemma written_app (w : World) (es : list Event) (n : nat) :
  written {| events := events w ++ es; clock_reads := n |} =
  written w ++ written {| events := es; clock_reads := n |}.
Proof. unfold written. cbn [events]. apply flat_map_app. Qed.

Lemma alerted_app (w : World) (es : list Event) (n : nat) :
  alerted {| events := events w ++ es; clock_reads := n |} =
  alerted w ++ alerted {| events := es; clock_reads := n |}.
Proof. unfold alerted. cbn [events]. apply flat_map_app. Qed.

(** C2: when the validator rejects the candidate, nothing is appended to
    storage, exactly one alert is sent and it carries the rejected record,
    and the call returns the last known coefficients from the store, run
    through the formatter (or the store's exception when that fetch
    fails). *)
Theorem rejection_alerts_and_falls_back
  (curve_fit : Solver) (db : DataBase) (utcnow_at : nat -> Z)
  (job_id : Z) (w : World) (pj : PredictionJob) (df components : DataFrame)
  (coefdict mean_coefs : dict) (error : list Q) :
  get_prediction_job db job_id = Ok pj ->
  get_input_energy_splitting db pj = Ok df ->
  find_components curve_fit df true = Ok (components, coefdict) ->
  (sel <- frame_select2 components "load" "Inschatting" ;; diff_axis1_iloc1 sel)
  = Ok error ->
  get_energy_split_coefs db pj true = Ok mean_coefs ->
  are_new_coefs_valid (dict_update coefdict [("MAE", series_mean (map Qabs error))])
                      mean_coefs = Ok false ->
  let candidate := dict_update coefdict [("MAE", series_mean (map Qabs error))] in
  let rejected := coef_rows pj df (utcnow_at (clock_reads w)) candidate in
  let run := split_energy curve_fit db utcnow_at job_id w in
  written (snd run) = written w
  /\ alerted (snd run) = alerted w ++ [(pj_id pj, rejected)]
  /\ fst run =
     match get_energy_split_coefs db pj false with
     | Ok last_coefdict =>
         fst (convert_coefdict_to_coefsdf utcnow_at pj df last_coefdict
                {| events := events (snd run); clock_reads := S (clock_reads w) |})
     | Raise e => Raise e
     end.
Proof.
  intros Hpj Hdf Hfc Herr Hmean Hvalid. cbn zeta.
  rewrite (split_energy_run _ _ _ _ _ _ _ _ _ _ _ _ Hpj Hdf Hfc Herr Hmean Hvalid).
  cbn zeta.
  destruct (get_energy_split_coefs db pj false) as [last_coefdict|e];
    cbn [fst snd]; rewrite ?convert_run; rewrite written_app, alerted_app;
    cbn [written alerted events flat_map app fst clock_reads];
    rewrite app_nil_r; repeat split; reflexivity.
Qed.

Lemma rejection_alerts_and_falls_back_witness :
  are_new_coefs_valid
    (dict_update [("wind", 1); ("pv", 1)] [("MAE", series_mean (map Qabs [-1; 1]))])
    [("wind", 10); ("pv", 1)] = Ok false
  /\ written (snd (run_example table_flat_wind [("wind", 10); ("pv", 1)]
                               [("wind", 9); ("pv", 1)])) = []
  /\ List.length (alerted (snd (run_example table_flat_wind [("wind", 10); ("pv", 1)]
                                            [("wind", 9); ("pv", 1)]))) = 1%nat
  /\ fst (run_example table_flat_wind [("wind", 10); ("pv", 1)] [("wind", 9); ("pv", 1)])
     = Ok (coef_rows {| pj_id := 7 |} table_flat_wind 1001 [("wind", 9); ("pv", 1)]).
Proof.
  assert (Hvalid :
            are_new_coefs_valid
              (dict_update [("wind", 1); ("pv", 1)]
                           [("MAE", series_mean (map Qabs [-1; 1]))])
              [("wind", 10); ("pv", 1)] = Ok false) by reflexivity.
  split; [exact Hvalid|].
  destruct (rejection_alerts_and_falls_back
              (fit_const [1; 1])
              (db_example table_flat_wind [("wind", 10); ("pv", 1)] [("wind", 9); ("pv", 1)])
              clock_example 7 fresh_world {| pj_id := 7 |} table_flat_wind
              components_flat_wind [("wind", 1); ("pv", 1)] [("wind", 10); ("pv", 1)]
              [-1; 1] eq_refl eq_refl eq_refl eq_refl eq_refl Hvalid)
    as (Hwritten & Halerted & Hret).
  split; [exact Hwritten|]. split.
  - unfold run_example. rewrite Halerted. reflexivity.
  - exact Hret.
Defined.

(** C4, as stated, fails: with ["MAE"] among the historical means, two tables
    with the same fitted weights [1, 1] and mean absolute errors [1] and [3]
    are accepted and rejected respectively. *)
Lemma mae_changes_outcome :
  are_new_coefs_valid [("wind", 1); ("pv", 1); ("MAE", 1)]
                      [("wind", 1); ("pv", 1); ("MAE", 1)] = Ok true
  /\ are_new_coefs_valid [("wind", 1); ("pv", 1); ("MAE", 3)]
                         [("wind", 1); ("pv", 1); ("MAE", 1)] = Ok false
  /\ List.length (written (snd (run_example table_flat_wind
                                  [("wind", 1); ("pv", 1); ("MAE", 1)] []))) = 1%nat
  /\ alerted (snd (run_example table_flat_wind
                     [("wind", 1); ("pv", 1); ("MAE", 1)] [])) = []
  /\ written (snd (run_example table_flat_wind_wide
                     [("wind", 1); ("pv", 1); ("MAE", 1)] [])) = []
  /\ List.length (alerted (snd (run_example table_flat_wind_wide
                                  [("wind", 1); ("pv", 1); ("MAE", 1)] []))) = 1%nat.
Proof.
  repeat split; reflexivity.
Qed.

Lemma map_Qabs_vsub (a b : list Q) : map Qabs (vsub a b) = map Qabs (vsub b a).
Proof.
  revert b. induction a as [|x a IH]; intros [|y b]; try reflexivity.
  unfold vsub in *. cbn [combine map fst snd].
  rewrite Qabs_Qminus. f_equal. apply IH.
Qed.

(** In a frame [find_components] returned, a column named ["load"] is the
    input's first column, and the estimate is there beside it. *)
Lemma components_load_estimate (curve_fit : Solver) (df : DataFrame) (zero_bound : bool)
  (components : DataFrame) (coefdict : dict) (load : list Q) :
  find_components curve_fit df zero_bound = Ok (components, coefdict) ->
  frame_getitem components "load" = Ok load ->
  exists estimate,
    iloc_col df 0 = Ok load
    /\ frame_getitem components "Inschatting" = Ok estimate
    /\ (sel <- frame_select2 components "load" "Inschatting" ;; diff_axis1_iloc1 sel)
       = Ok (vsub estimate load)
    /\ index components = index df
    /\ (frame_wf df ->
        List.length load = nrows df /\ List.length estimate = nrows df).
Proof.
  intros Hfc Hload.
  destruct (find_components_inv _ _ _ _ _ Hfc)
    as (n0 & load0 & n1 & wind_ref & n2 & pv_ref & rest & fitted & d & H).
  cbn zeta in H. destruct H as (Hcols & _ & _ & Hd & -> & _).
  rewrite !frame_getitem_setitem_other in Hload by discriminate.
  unfold frame_getitem in Hload. cbn [columns col_find] in Hload.
  destruct (String.eqb_spec n0 "load") as [->|Hne]; [|discriminate].
  injection Hload as ->.
  eexists. split; [unfold iloc_col; rewrite Hcols; reflexivity|].
  split; [reflexivity|]. split; [reflexivity|]. split; [reflexivity|].
  intro Hwf. destruct (frame_wf_columns _ _ _ _ Hwf Hcols) as [Hlen Hrows].
  split; [exact Hlen|]. apply dot_T_length. exact Hrows.
Qed.

(** C7: the value the orchestrator stores under ["MAE"] is the mean, over
    the rows of the components frame, of [|load - estimate|]; it is part of
    the record that is then written or, on rejection, sent with the alert. *)
Theorem mae_is_mean_absolute_error
  (curve_fit : Solver) (db : DataBase) (utcnow_at : nat -> Z)
  (job_id : Z) (w : World) (pj : PredictionJob) (df components : DataFrame)
  (coefdict mean_coefs : dict) (load : list Q) (b : bool) :
  get_prediction_job db job_id = Ok pj ->
  get_input_energy_splitting db pj = Ok df ->
  frame_wf df ->
  find_components curve_fit df true = Ok (components, coefdict) ->
  frame_getitem components "load" = Ok load ->
  get_energy_split_coefs db pj true = Ok mean_coefs ->
  exists estimate,
    let mae := series_mean (map Qabs (vsub load estimate)) in
    let candidate := dict_setitem coefdict "MAE" mae in
    let record := coef_rows pj df (utcnow_at (clock_reads w)) candidate in
    let run := split_energy curve_fit db utcnow_at job_id w in
    frame_getitem components "Inschatting" = Ok estimate
    /\ List.length load = nrows components
    /\ List.length estimate = nrows components
    /\ dict_find candidate "MAE" = Some mae
    /\ (are_new_coefs_valid candidate mean_coefs = Ok b ->
        if b
        then fst run = Ok record /\ written (snd run) = written w ++ [record]
        else alerted (snd run) = alerted w ++ [(pj_id pj, record)]).
Proof.
  intros Hpj Hdf Hwf Hfc Hload Hmean.
  destruct (components_load_estimate _ _ _ _ _ _ Hfc Hload)
    as (estimate & _ & Hest & Herr & Hix & Hlen).
  destruct (Hlen Hwf) as [Hl He].
  exists estimate. cbn zeta.
  split; [exact Hest|].
  unfold nrows in *. rewrite Hix.
  split; [exact Hl|]. split; [exact He|].
  split; [apply dict_find_setitem_same|].
  intro Hvalid.
  rewrite <- map_Qabs_vsub in Hvalid |- *.
  change (dict_setitem coefdict "MAE" (series_mean (map Qabs (vsub estimate load))))
    with (dict_update coefdict [("MAE", series_mean (map Qabs (vsub estimate load)))])
    in Hvalid |- *.
  rewrite (split_energy_run _ _ _ _ _ _ _ _ _ _ _ _ Hpj Hdf Hfc Herr Hmean Hvalid).
  cbn zeta.
  destruct b.
  - cbn [fst snd]. split; [reflexivity|].
    rewrite written_app. reflexivity.
  - destruct (get_energy_split_coefs db pj false) as [last_coefdict|e];
      cbn [snd]; rewrite alerted_app; reflexivity.
Qed.

Lemma mae_is_mean_absolute_error_witness :
  frame_wf table_flat_wind
  /\ exists estimate,
      frame_getitem components_flat_wind "Inschatting" = Ok estimate
      /\ dict_find (dict_setitem [("wind", 1); ("pv", 1)] "MAE"
                      (series_mean (map Qabs (vsub [2; 0] estimate)))) "MAE"
         = Some (series_mean (map Qabs (vsub [2; 0] estimate)))
      /\ List.length (written (snd (run_example table_flat_wind
                                      [("wind", 1); ("pv", 1)] []))) = 1%nat.
Proof.
  assert (Hwf : frame_wf table_flat_wind) by (repeat constructor).
  split; [exact Hwf|].
  destruct (mae_is_mean_absolute_error
              (fit_const [1; 1])
              (db_example table_flat_wind [("wind", 1); ("pv", 1)] [])
              clock_example 7 fresh_world {| pj_id := 7 |} table_flat_wind
              components_flat_wind [("wind", 1); ("pv", 1)] [("wind", 1); ("pv", 1)]
              [2; 0] true eq_refl eq_refl Hwf eq_refl eq_refl eq_refl)
    as (estimate & H).
  cbn zeta in H. destruct H as (Hest & _ & _ & Hmae & Hrun).
  exists estimate. split; [exact Hest|]. split; [exact Hmae|].
  injection Hest as <-.
  destruct (Hrun eq_refl) as [_ Hwritten].
  unfold run_example. rewrite Hwritten. reflexivity.
Defined.

(** ** The Tracy job runner *)

Section TracyRunner.

Import RunTracy.

Variable PredictionJob : Type.
Variable get_all_tracy_jobs : Z -> list TracyJob.
Variable py_int : string -> result Z.
Variable get_prediction_job : Z -> result PredictionJob.
Variable logger_info_no_event : result unit.
Variable train_model_task : PredictionJob -> result unit.
Variable optimize_hyperparameters_task : PredictionJob -> result unit.

Local Abbreviation try_job' :=
  (try_job PredictionJob py_int get_prediction_job logger_info_no_event
           train_model_task optimize_hyperparameters_task).
Local Abbreviation process_job' :=
  (process_job PredictionJob py_int get_prediction_job logger_info_no_event
               train_model_task optimize_hyperparameters_task).
Local Abbreviation run_tracy' :=
  (run_tracy PredictionJob get_all_tracy_jobs py_int get_prediction_job
             logger_info_no_event train_model_task optimize_hyperparameters_task).

Local Abbreviation job_events' :=
  (job_events PredictionJob py_int get_prediction_job logger_info_no_event
              train_model_task optimize_hyperparameters_task).

(** For a known function the [try] body touches nothing in the world and
    never asks to skip the rest of the iteration. *)
Lemma try_job_known (job : TracyJob) (w : World) :
  known_function (function job) = true ->
  try_job' job w = (fst (try_job' job []), w)
  /\ fst (try_job' job []) <> Ok Continue.
Proof.
  unfold known_function, try_job, lift. intro Hknown.
  destruct (str_in (function job) ["train_model"; "train_specific_model"]).
  - cbn [bind ret io_monad].
    destruct logger_info_no_event; [|split; [reflexivity|discriminate]].
    destruct (py_int (args job)) as [n|]; [|split; [reflexivity|discriminate]].
    destruct (get_prediction_job n) as [pj|]; [|split; [reflexivity|discriminate]].
    destruct (train_model_task pj); split; try reflexivity; discriminate.
  - cbn [orb] in Hknown. rewrite Hknown. cbn [bind ret io_monad].
    destruct (py_int (args job)) as [n|]; [|split; [reflexivity|discriminate]].
    destruct (get_prediction_job n) as [pj|]; [|split; [reflexivity|discriminate]].
    destruct (optimize_hyperparameters_task pj); split; try reflexivity; discriminate.
Qed.

Lemma try_job_unknown (job : TracyJob) (w : World) :
  known_function (function job) = false ->
  try_job' job w = (Ok Continue, w ++ [LogError "Unkown Tracy job"]).
Proof.
  unfold known_function, try_job. intro Hknown.
  apply orb_false_iff in Hknown. destruct Hknown as [-> ->]. reflexivity.
Qed.

(** An iteration never raises, and only appends to the world. *)
Lemma process_job_run (ij : nat * TracyJob) (w : World) :
  process_job' ij w = (Ok tt, w ++ job_events' (snd ij)).
Proof.
  destruct ij as [i job]. unfold job_events, process_job, try_except, emit.
  cbn [snd bind ret io_monad].
  set (job1 := set_inprogress job 1).
  destruct (known_function (function job1)) eqn:Hknown.
  - destruct (try_job_known job1 ((w ++ [UpdateTracyJob job1]) ++ [LogInfo "Process job"])
                Hknown) as [-> Hflow].
    destruct (try_job_known job1 (([] ++ [UpdateTracyJob job1]) ++ [LogInfo "Process job"])
                Hknown) as [-> _].
    destruct (fst (try_job' job1 [])) as [[|]|e]; cbn [app snd];
      try contradiction; rewrite <- ?app_assoc; reflexivity.
  - rewrite !try_job_unknown by exact Hknown.
    cbn [app snd]. rewrite <- !app_assoc. reflexivity.
Qed.

Lemma for_each_run (l : list (nat * TracyJob)) (w : World) :
  for_each process_job' l w = (Ok tt, w ++ flat_map (fun ij => job_events' (snd ij)) l).
Proof.
  revert w. induction l as [|ij l IH]; intro w; cbn [for_each flat_map].
  - cbn [ret io_monad]. now rewrite app_nil_r.
  - cbn [bind io_monad]. rewrite process_job_run, IH.
    now rewrite <- app_assoc.
Qed.

Lemma enumerate_snd {A} (l : list A) (start : nat) :
  map snd (combine (seq start (List.length l)) l) = l.
Proof.
  revert start. induction l as [|a l IH]; intro start; simpl; [reflexivity|].
  now rewrite IH.
Qed.

Lemma flat_map_snd {A B C} (f : B -> list C) (l : list (A * B)) :
  flat_map (fun ab => f (snd ab)) l = flat_map f (map snd l).
Proof.
  induction l as [|ab l IH]; simpl; [reflexivity|]. now rewrite IH.
Qed.

(** The whole run: it never raises, and the world grows by the events of
    each fetched job in turn. *)
Lemma run_tracy_run (w : World) :
  run_tracy' w =
  (Ok tt,
   w ++ match get_all_tracy_jobs 0 with
        | [] => [LogWarning "No Tracy jobs to process, exit"]
        | jobs => [LogInfo "Start processing Tracy jobs"]
                  ++ flat_map job_events' jobs
                  ++ [LogInfo "Finished processing all Tracy jobs - Tracy out!"]
        end).
Proof.
  unfold run_tracy.
  destruct (get_all_tracy_jobs 0) as [|job jobs] eqn:Ejobs.
  - reflexivity.
  - cbn [List.length Nat.eqb]. cbn [bind io_monad]. unfold emit at 1.
    rewrite for_each_run. unfold emit. unfold enumerate.
    rewrite flat_map_snd, enumerate_snd. rewrite <- !app_assoc. reflexivity.
Qed.

Lemma job_events_known (job : TracyJob) (w : World) :
  known_function (function job) = true ->
  job_events' job =
  match fst (try_job' (set_inprogress job 1) w) with
  | Ok _ => events_handler_returned job
  | Raise _ => events_handler_raised job
  end.
Proof.
  intro Hknown.
  assert (Hknown1 : known_function (function (set_inprogress job 1)) = true)
    by exact Hknown.
  destruct (try_job_known _ w Hknown1) as [-> Hflow]. cbn [fst].
  unfold job_events, process_job, try_except, emit.
  cbn [snd bind ret io_monad].
  destruct (try_job_known _ (([] ++ [UpdateTracyJob (set_inprogress job 1)])
                               ++ [LogInfo "Process job"]) Hknown1) as [-> _].
  destruct (fst (try_job' (set_inprogress job 1) [])) as [[|]|e];
    try contradiction; reflexivity.
Qed.

(** C9: for a fetched job with a known function name the run goes through
    the same closing steps whether the handler returned or raised: when it
    raised, the job is first written back with [inprogress = 2] and the
    failure is posted, then the success message is posted all the same and
    the job is deleted.  (The calls on the database, the channel and the
    logger are taken to return, so the run as a whole returns.) *)
Theorem failed_job_is_still_deleted (job : TracyJob) (w : World) :
  In job (get_all_tracy_jobs 0) ->
  known_function (function job) = true ->
  exists before after,
    run_tracy' w =
    (Ok tt,
     w ++ before
       ++ match fst (try_job' (set_inprogress job 1) w) with
          | Ok _ =>
              [UpdateTracyJob (set_inprogress job 1); LogInfo "Process job";
               LogInfo "Succesfully processed Tracy job";
               PostTeams (SuccesfullyProcessed (set_inprogress job 1));
               DeleteTracyJob (set_inprogress job 1); LogInfo "Delete Tracy job"]
          | Raise _ =>
              [UpdateTracyJob (set_inprogress job 1); LogInfo "Process job";
               UpdateTracyJob (set_inprogress job 2);
               LogError "Exception occured while processing Tracy job";
               PostTeams (ExceptionOccured (set_inprogress job 2));
               LogInfo "Succesfully processed Tracy job";
               PostTeams (SuccesfullyProcessed (set_inprogress job 2));
               DeleteTracyJob (set_inprogress job 2); LogInfo "Delete Tracy job"]
          end
       ++ after).
Proof.
  intros Hin Hknown. rewrite run_tracy_run.
  destruct (in_split _ _ Hin) as (l1 & l2 & Hjobs).
  destruct (get_all_tracy_jobs 0) as [|j0 jobs] eqn:Ejobs; [destruct l1; discriminate|].
  rewrite Hjobs, flat_map_app. cbn [flat_map].
  rewrite (job_events_known job w Hknown).
  exists ([LogInfo "Start processing Tracy jobs"] ++ flat_map job_events' l1),
    (flat_map job_events' l2 ++ [LogInfo "Finished processing all Tracy jobs - Tracy out!"]).
  rewrite <- !app_assoc. reflexivity.
Qed.

End TracyRunner.

Lemma failed_job_is_still_deleted_witness :
  In job_bad_args [job_bad_args]
  /\ known_function (RunTracy.function job_bad_args) = true
  /\ exists before after,
      RunTracy.run_tracy Z (fun _ => [job_bad_args]) (fun _ => Raise ValueError)
        (fun n => Ok n) (Ok tt) (fun _ => Ok tt) (fun _ => Ok tt) []
      = (Ok tt,
         [] ++ before
            ++ [RunTracy.UpdateTracyJob (RunTracy.set_inprogress job_bad_args 1);
                RunTracy.LogInfo "Process job";
                RunTracy.UpdateTracyJob (RunTracy.set_inprogress job_bad_args 2);
                RunTracy.LogError "Exception occured while processing Tracy job";
                RunTracy.PostTeams
                  (RunTracy.ExceptionOccured (RunTracy.set_inprogress job_bad_args 2));
                RunTracy.LogInfo "Succesfully processed Tracy job";
                RunTracy.PostTeams
                  (RunTracy.SuccesfullyProcessed (RunTracy.set_inprogress job_bad_args 2));
                RunTracy.DeleteTracyJob (RunTracy.set_inprogress job_bad_args 2);
                RunTracy.LogInfo "Delete Tracy job"]
            ++ after).
Proof.
  split; [left; reflexivity|]. split; [reflexivity|].
  apply (failed_job_is_still_deleted Z (fun _ => [job_bad_args]) (fun _ => Raise ValueError)
           (fun n => Ok n) (Ok tt) (fun _ => Ok tt) (fun _ => Ok tt) job_bad_args []).
  - left. reflexivity.
  - reflexivity.
Defined.


(** * Further properties *)

(** ** The validator, continued *)

(** X9: a coefficient set is always valid against itself. *)
Theorem are_new_coefs_valid_refl (coefs : dict) :
  are_new_coefs_valid coefs coefs = Ok true.
Proof.
  apply loop_true_iff. intros key Hin.
  destruct (dict_find_in_keys _ _ Hin) as [m Hm].
  exists m, m. split; [exact Hm|]. split; [exact Hm|].
  assert (H0 : m - m == 0) by ring. rewrite H0. cbn [Qabs Z.abs Qnum Qden].
  apply Qmult_le_0_compat; [discriminate|apply Qabs_nonneg].
Qed.

Lemma loop_false_iff (new_coefs mean_coefs : dict) (ks : list string) :
  incl ks (keys mean_coefs) ->
  are_new_coefs_valid_loop ks new_coefs mean_coefs = Ok false <->
  exists before key after m n,
    ks = before ++ key :: after /\
    dict_find mean_coefs key = Some m /\
    dict_find new_coefs key = Some n /\
    (3 # 10) * Qabs m < Qabs (m - n) /\
    forall k, In k before -> key_within_bound new_coefs mean_coefs k.
Proof.
  induction ks as [|k ks IH]; intro Hincl;
    cbn [are_new_coefs_valid_loop bind result_monad].
  - split; [discriminate|].
    intros (before & key & after & m & n & Heq & _). destruct before; discriminate.
  - assert (Hk : In k (keys mean_coefs)) by (apply Hincl; left; reflexivity).
    assert (Hks : incl ks (keys mean_coefs))
      by (intros x Hx; apply Hincl; right; exact Hx).
    destruct (dict_find_in_keys _ _ Hk) as [m Em].
    unfold dict_getitem. rewrite Em. cbn [bind result_monad].
    destruct (dict_find new_coefs k) as [n|] eqn:En; cbn [bind result_monad].
    + destruct (Qltb (COEF_MAX_PCT_DIFF * Qabs m) (Qabs (m - n))) eqn:Ecmp.
      * split; [intros _|reflexivity]. apply Qltb_lt in Ecmp.
        exists [], k, ks, m, n. repeat split; auto. intros k' [].
      * rewrite (IH Hks). apply Qltb_ge in Ecmp. split.
        -- intros (before & key & after & m' & n' & -> & Hm & Hn & Hlt & Hbefore).
           exists (k :: before), key, after, m', n'. repeat split; auto.
           intros k' [<-|Hin]; [exists m, n|]; auto.
        -- intros (before & key & after & m' & n' & Heq & Hm & Hn & Hlt & Hbefore).
           destruct before as [|b before]; injection Heq as <- Hrest.
           ++ assert (m' = m) by congruence. assert (n' = n) by congruence. subst.
              exfalso. exact (Qlt_not_le _ _ Hlt Ecmp).
           ++ exists before, key, after, m', n'. repeat split; auto.
              intros k' Hin. apply Hbefore. right. exact Hin.
    + split; [discriminate|].
      intros (before & key & after & m' & n' & Heq & Hm & Hn & Hlt & Hbefore).
      destruct before as [|b before]; injection Heq as <- Hrest.
      * congruence.
      * destruct (Hbefore k (or_introl eq_refl)) as (m'' & n'' & _ & Hn'' & _).
        congruence.
Qed.

(** X10: [are_new_coefs_valid] returns [False] exactly when some key of
    [mean_coefs] is present in [new_coefs] and off by more than 30% of the
    mean, while every key before it is present and within the bound. *)
Theorem are_new_coefs_valid_false_iff (new_coefs mean_coefs : dict) :
  are_new_coefs_valid new_coefs mean_coefs = Ok false <->
  exists before key after m n,
    keys mean_coefs = before ++ key :: after /\
    dict_find mean_coefs key = Some m /\
    dict_find new_coefs key = Some n /\
    (3 # 10) * Qabs m < Qabs (m - n) /\
    forall k, In k before -> key_within_bound new_coefs mean_coefs k.
Proof.
  apply loop_false_iff. apply incl_refl.
Qed.

Lemma within_bound_band (m n : Q) :
  Qabs (m - n) <= (3 # 10) * Qabs m ->
  (0 <= m -> (7 # 10) * m <= n /\ n <= (13 # 10) * m)
  /\ (m <= 0 -> (13 # 10) * m <= n /\ n <= (7 # 10) * m).
Proof.
  intro H. apply Qabs_Qle_condition in H. destruct H as [Hlo Hhi]. split; intro Hm.
  - rewrite (Qabs_pos m Hm) in Hlo, Hhi. split; lra.
  - rewrite (Qabs_neg m Hm) in Hlo, Hhi. split; lra.
Qed.

(** X11: an accepted coefficient lies within 30% of its historical mean and
    on the same side of zero: between [0.7 m] and [1.3 m] for a mean
    [m >= 0], between [1.3 m] and [0.7 m] for [m <= 0]; against a mean of
    exactly [0] only [0] is accepted. *)
Theorem accepted_coefficient_band (new_coefs mean_coefs : dict) (key : string) (m : Q) :
  are_new_coefs_valid new_coefs mean_coefs = Ok true ->
  In key (keys mean_coefs) ->
  dict_find mean_coefs key = Some m ->
  exists n,
    dict_find new_coefs key = Some n
    /\ (0 <= m -> (7 # 10) * m <= n /\ n <= (13 # 10) * m)
    /\ (m <= 0 -> (13 # 10) * m <= n /\ n <= (7 # 10) * m)
    /\ (m == 0 -> n == 0).
Proof.
  intros Hvalid Hin Hm.
  destruct (proj1 (loop_true_iff _ _ _) Hvalid key Hin) as (m' & n & Hm' & Hn & Hle).
  assert (m' = m) by congruence. subst m'.
  destruct (within_bound_band _ _ Hle) as [Hpos Hneg].
  exists n. split; [exact Hn|]. split; [exact Hpos|]. split; [exact Hneg|].
  intro H0.
  assert (H1 : 0 <= m) by (rewrite H0; apply Qle_refl).
  assert (H2 : m <= 0) by (rewrite H0; apply Qle_refl).
  destruct (Hpos H1), (Hneg H2). lra.
Qed.

Lemma accepted_coefficient_band_witness :
  are_new_coefs_valid [("wind", 12); ("pv", 0)] [("wind", 10); ("pv", 0)] = Ok true
  /\ exists n,
      dict_find [("wind", 12); ("pv", 0)] "wind" = Some n
      /\ (0 <= 10 -> (7 # 10) * 10 <= n /\ n <= (13 # 10) * 10)
      /\ (10 <= 0 -> (13 # 10) * 10 <= n /\ n <= (7 # 10) * 10)
      /\ (10 == 0 -> n == 0).
Proof.
  split; [reflexivity|].
  apply (accepted_coefficient_band [("wind", 12); ("pv", 0)] [("wind", 10); ("pv", 0)]
           "wind" 10).
  - reflexivity.
  - left. reflexivity.
  - reflexivity.
Defined.

(** X12: only the keys of [mean_coefs] are looked up: two coefficient sets
    that agree on them get the same answer, exceptions included. *)
Theorem are_new_coefs_valid_only_reads_mean_keys (new_coefs new_coefs' mean_coefs : dict) :
  (forall key, In key (keys mean_coefs) ->
               dict_find new_coefs' key = dict_find new_coefs key) ->
  are_new_coefs_valid new_coefs' mean_coefs = are_new_coefs_valid new_coefs mean_coefs.
Proof.
  apply loop_ignores_other_keys.
Qed.

Lemma are_new_coefs_valid_only_reads_mean_keys_witness :
  are_new_coefs_valid [("wind", 12); ("pv", 3); ("E1A", 40)] [("wind", 10)]
  = are_new_coefs_valid [("wind", 12)] [("wind", 10)].
Proof.
  apply (are_new_coefs_valid_only_reads_mean_keys
           [("wind", 12)] [("wind", 12); ("pv", 3); ("E1A", 40)] [("wind", 10)]).
  intros key [<-|[]]. reflexivity.
Defined.

(** ** The splitter, continued *)

Lemma weighted_sum_same_length (n : nat) (x : list (list Q)) (w : list Q) :
  List.length x = List.length w -> weighted_sum n x w = Ok (dot_T n x w).
Proof.
  intro H. unfold weighted_sum. rewrite H, Nat.eqb_refl. reflexivity.
Qed.

Lemma weighted_sum_other_length (n : nat) (x : list (list Q)) (w : list Q) :
  List.length x <> List.length w ->
  weighted_sum n x w = Raise (Exception "Length of args should match len of x").
Proof.
  intro H. unfold weighted_sum.
  destruct (Nat.eqb_spec (List.length x) (List.length w)); [contradiction|reflexivity].
Qed.

Lemma setitem_cols_length_ge (cols : list column) (name : string) (v : list Q) :
  (List.length cols <= List.length (setitem_cols cols name v))%nat.
Proof.
  induction cols as [|[n v0] cols IH]; simpl; [lia|].
  destruct (String.eqb n name); simpl; lia.
Qed.

Lemma setitem_cols_row_count (n : nat) (cols : list column) (name : string) (v : list Q) :
  Forall (fun c : column => List.length (snd c) = n) cols ->
  List.length v = n ->
  Forall (fun c : column => List.length (snd c) = n) (setitem_cols cols name v).
Proof.
  intros Hcols Hv. induction Hcols as [|[k v0] cols Hc Hcols IH]; simpl.
  - constructor; [exact Hv|constructor].
  - destruct (String.eqb k name); constructor; auto.
Qed.

(** After the estimate and the baseline are set there are two columns to
    take the difference of, whatever the load column is called. *)
Lemma two_columns_after_baseline (n0 : string) (load hist histp0 : list Q) :
  (2 <= List.length
          (setitem_cols (setitem_cols [(n0, load)] "Inschatting" hist) "p0" histp0))%nat.
Proof.
  cbn [setitem_cols]. destruct (String.eqb_spec n0 "Inschatting") as [->|Hne].
  - cbn. lia.
  - cbn [setitem_cols]. destruct (String.eqb n0 "p0"); cbn; lia.
Qed.

Lemma diff_axis1_iloc1_two_columns (df : DataFrame) :
  (2 <= List.length (columns df))%nat ->
  exists c0 c1 cols,
    columns df = c0 :: c1 :: cols
    /\ diff_axis1_iloc1 (iloc_0_2 df) = Ok (vsub (snd c1) (snd c0)).
Proof.
  unfold diff_axis1_iloc1, iloc_0_2. cbn [columns].
  destruct (columns df) as [|[k0 v0] [|[k1 v1] cols]]; cbn [List.length]; try lia.
  intros _. exists (k0, v0), (k1, v1), cols. split; reflexivity.
Qed.

(** With three columns or more, the call stands or falls with the solver. *)
Lemma find_components_outcome (curve_fit : Solver) (df : DataFrame) (zero_bound : bool)
  (n0 n1 n2 : string) (load wind_ref pv_ref : list Q) (rest : list column) :
  columns df = (n0, load) :: (n1, wind_ref) :: (n2, pv_ref) :: rest ->
  match curve_fit (weighted_sum (nrows df)) (wind_ref :: pv_ref :: map snd rest) load
                  (initial_guess load (List.length (columns df))) (bounds_of zero_bound)
  with
  | Raise e => find_components curve_fit df zero_bound = Raise e
  | Ok fitted =>
      if (List.length fitted =? S (S (List.length rest)))%nat
      then exists components coefdict,
          find_components curve_fit df zero_bound = Ok (components, coefdict)
      else find_components curve_fit df zero_bound
           = Raise (Exception "Length of args should match len of x")
  end.
Proof.
  intro Hcols. unfold find_components, iloc_col.
  destruct df as [ix cols]. cbn [columns index nrows] in *. subst cols.
  cbn [nth_error bind result_monad snd skipn map fst firstn].
  change (if zero_bound then (Some 0, None) else (None, None))
    with (bounds_of zero_bound).
  change ([1; 1] ++ repeat ((series_max load - series_min load) / 10)
            (List.length ((n0, load) :: (n1, wind_ref) :: (n2, pv_ref) :: rest) - 3))
    with (initial_guess load
            (List.length ((n0, load) :: (n1, wind_ref) :: (n2, pv_ref) :: rest))).
  destruct (curve_fit _ _ _ _ _) as [fitted|e]; cbn [bind result_monad];
    [|reflexivity].
  destruct (Nat.eqb_spec (List.length fitted) (S (S (List.length rest)))) as [Hlen|Hlen].
  - rewrite weighted_sum_same_length
      by (rewrite zero_small_length, Hlen; cbn [List.length]; now rewrite length_map).
    cbn [bind result_monad].
    rewrite weighted_sum_same_length
      by (unfold initial_guess; cbn [List.length app];
          rewrite repeat_length, length_map; lia).
    cbn [bind result_monad].
    destruct fitted as [|f0 [|f1 fitted]]; try discriminate.
    cbn [zero_small map array_getitem nth_error bind result_monad skipn].
    unfold mul_sum_axis1.
    replace (List.length rest =? List.length (map _ fitted))%nat with true
      by (symmetry; apply Nat.eqb_eq; rewrite length_map;
          cbn [List.length] in Hlen; lia).
    cbn [negb bind result_monad].
    match goal with
    | |- context [diff_axis1_iloc1 (iloc_0_2 ?c)] =>
        destruct (diff_axis1_iloc1_two_columns c) as (c0 & c1 & cs & _ & ->)
    end.
    + unfold frame_setitem. cbn [columns].
      etransitivity; [apply two_columns_after_baseline|].
      etransitivity; [apply setitem_cols_length_ge|].
      etransitivity; [apply setitem_cols_length_ge|].
      apply setitem_cols_length_ge.
    + cbn [bind result_monad ret]. eauto.
  - rewrite weighted_sum_other_length; [reflexivity|].
    rewrite zero_small_length. cbn [List.length]. rewrite length_map.
    unfold column in *. lia.
Qed.

Lemma three_columns_form (df : DataFrame) (load : list Q) :
  (3 <= List.length (columns df))%nat ->
  iloc_col df 0 = Ok load ->
  exists n0 n1 wind_ref n2 pv_ref rest,
    columns df = (n0, load) :: (n1, wind_ref) :: (n2, pv_ref) :: rest.
Proof.
  unfold iloc_col.
  destruct (columns df) as [|[n0 l0] [|[n1 wind_ref] [|[n2 pv_ref] rest]]];
    cbn [List.length nth_error snd]; try lia.
  intros _ H. injection H as ->. eauto 7.
Qed.

(** X1: a table with fewer than three columns is refused with an
    [IndexError], whatever the solver and the bound policy. *)
Theorem find_components_needs_three_columns
  (curve_fit : Solver) (df : DataFrame) (zero_bound : bool) :
  (List.length (columns df) < 3)%nat ->
  find_components curve_fit df zero_bound = Raise IndexError.
Proof.
  unfold find_components, iloc_col.
  destruct (columns df) as [|[n0 l0] [|[n1 wind_ref] [|[n2 pv_ref] rest]]];
    cbn [List.length nth_error bind result_monad]; try reflexivity.
  lia.
Qed.

Lemma find_components_needs_three_columns_witness :
  find_components (fit_const [1; 1])
    {| index := [0%Z]; columns := [("load", [2]); ("wind", [1])] |} true
  = Raise IndexError.
Proof.
  apply (find_components_needs_three_columns (fit_const [1; 1])
           {| index := [0%Z]; columns := [("load", [2]); ("wind", [1])] |} true).
  cbn. lia.
Defined.

(** X2: an exception of the solver leaves [find_components] unchanged. *)
Theorem solver_failure_propagates
  (curve_fit : Solver) (df : DataFrame) (zero_bound : bool) (load : list Q) (e : exn) :
  (3 <= List.length (columns df))%nat ->
  iloc_col df 0 = Ok load ->
  curve_fit (weighted_sum (nrows df)) (map snd (skipn 1 (columns df))) load
            (initial_guess load (List.length (columns df))) (bounds_of zero_bound)
  = Raise e ->
  find_components curve_fit df zero_bound = Raise e.
Proof.
  intros Hk Hload Hfit.
  destruct (three_columns_form _ _ Hk Hload)
    as (n0 & n1 & wind_ref & n2 & pv_ref & rest & Hcols).
  pose proof (find_components_outcome curve_fit df zero_bound _ _ _ _ _ _ _ Hcols) as H.
  rewrite Hcols in Hfit. cbn [skipn map snd] in Hfit. rewrite <- Hcols in Hfit.
  rewrite Hfit in H. exact H.
Qed.

Lemma solver_failure_propagates_witness :
  find_components (fun _ _ _ _ _ => Raise (External "Optimal parameters not found"))
                  table_flat_wind true
  = Raise (External "Optimal parameters not found").
Proof.
  apply (solver_failure_propagates
           (fun _ _ _ _ _ => Raise (External "Optimal parameters not found"))
           table_flat_wind true [2; 0]).
  - cbn. lia.
  - reflexivity.
  - reflexivity.
Defined.

(** X3: on a table of [k >= 3] columns for which the solver answers,
    [find_components] returns a result exactly when the answer has [k - 1]
    weights, and raises its own "Length of args" exception otherwise; no
    column name can make it fail. *)
Theorem find_components_returns_iff
  (curve_fit : Solver) (df : DataFrame) (zero_bound : bool) (load fitted : list Q) :
  (3 <= List.length (columns df))%nat ->
  iloc_col df 0 = Ok load ->
  curve_fit (weighted_sum (nrows df)) (map snd (skipn 1 (columns df))) load
            (initial_guess load (List.length (columns df))) (bounds_of zero_bound)
  = Ok fitted ->
  (List.length fitted = (List.length (columns df) - 1)%nat ->
   exists components coefdict,
     find_components curve_fit df zero_bound = Ok (components, coefdict))
  /\ (List.length fitted <> (List.length (columns df) - 1)%nat ->
      find_components curve_fit df zero_bound
      = Raise (Exception "Length of args should match len of x")).
Proof.
  intros Hk Hload Hfit.
  destruct (three_columns_form _ _ Hk Hload)
    as (n0 & n1 & wind_ref & n2 & pv_ref & rest & Hcols).
  pose proof (find_components_outcome curve_fit df zero_bound _ _ _ _ _ _ _ Hcols) as H.
  rewrite Hcols in Hfit. cbn [skipn map snd] in Hfit. rewrite <- Hcols in Hfit.
  rewrite Hfit in H. rewrite Hcols. cbn [List.length Nat.sub].
  unfold column in *.
  destruct (Nat.eqb_spec (List.length fitted) (S (S (List.length rest)))) as [Hlen|Hlen];
    split; intro Hl; try contradiction; exact H.
Qed.

Lemma find_components_returns_iff_witness :
  (exists components coefdict,
      find_components (fit_const [1; 1]) table_flat_wind true = Ok (components, coefdict))
  /\ find_components (fit_const [1]) table_flat_wind true
     = Raise (Exception "Length of args should match len of x").
Proof.
  split.
  - apply (proj1 (find_components_returns_iff (fit_const [1; 1]) table_flat_wind true
                    [2; 0] [1; 1] ltac:(cbn; lia) eq_refl eq_refl)).
    reflexivity.
  - apply (proj2 (find_components_returns_iff (fit_const [1]) table_flat_wind true
                    [2; 0] [1] ltac:(cbn; lia) eq_refl eq_refl)).
    cbn. lia.
Defined.

Lemma dict_find_update_inv (d pairs : dict) (key : string) (v : Q) :
  dict_find (dict_update d pairs) key = Some v ->
  In (key, v) pairs \/ dict_find d key = Some v.
Proof.
  revert d. induction pairs as [|[k x] pairs IH]; intros d H; [right; exact H|].
  unfold dict_update in *. cbn [fold_left fst snd] in H.
  destruct (IH _ H) as [Hin|Hfind]; [left; right; exact Hin|].
  destruct (String.eqb_spec k key) as [->|Hne].
  - rewrite dict_find_setitem_same in Hfind. injection Hfind as ->.
    left. left. reflexivity.
  - rewrite dict_find_setitem_other in Hfind by exact Hne. right. exact Hfind.
Qed.

Lemma dict_setitem_fresh (d : dict) (key : string) (v : Q) :
  ~ In key (keys d) -> dict_setitem d key v = d ++ [(key, v)].
Proof.
  induction d as [|[k v0] d IH]; intro Hnot; [reflexivity|].
  cbn [dict_setitem app]. cbn [keys map fst In] in Hnot.
  destruct (String.eqb_spec k key) as [->|Hne]; [tauto|].
  rewrite IH; [reflexivity|]. intro Hin. apply Hnot. right. exact Hin.
Qed.

Lemma dict_update_fresh (d pairs : dict) :
  NoDup (keys pairs) ->
  (forall key, In key (keys pairs) -> ~ In key (keys d)) ->
  dict_update d pairs = d ++ pairs.
Proof.
  revert d. induction pairs as [|[k x] pairs IH]; intros d Hnd Hfresh.
  - unfold dict_update. cbn. now rewrite app_nil_r.
  - unfold dict_update in *. cbn [fold_left fst snd].
    cbn [keys map fst] in Hnd, Hfresh. inversion Hnd as [|k' ks Hk Hnd']; subst.
    rewrite dict_setitem_fresh by (apply Hfresh; left; reflexivity).
    rewrite IH.
    + rewrite <- app_assoc. reflexivity.
    + exact Hnd'.
    + intros key Hin Hin'. unfold keys in Hin'. rewrite map_app in Hin'.
      apply in_app_or in Hin'. destruct Hin' as [Hin'|[<-|[]]].
      * apply (Hfresh key); [right; exact Hin|exact Hin'].
      * apply Hk. exact Hin.
Qed.

Lemma map_fst_combine_same_length {A B} (a : list A) (b : list B) :
  List.length a = List.length b -> map fst (combine a b) = a.
Proof.
  revert b. induction a as [|x a IH]; intros [|y b] H; try discriminate; [reflexivity|].
  cbn. f_equal. apply IH. now injection H.
Qed.

Lemma map_snd_combine_same_length {A B} (a : list A) (b : list B) :
  List.length a = List.length b -> map snd (combine a b) = b.
Proof.
  revert b. induction a as [|x a IH]; intros [|y b] H; try discriminate; [reflexivity|].
  cbn. f_equal. apply IH. now injection H.
Qed.

Lemma zero_small_values (coefs : list Q) (v : Q) :
  In v (zero_small coefs) -> v = 0 \/ 1 # 10 <= v.
Proof.
  unfold zero_small. intro Hin. apply in_map_iff in Hin.
  destruct Hin as (c & <- & _).
  destruct (Qltb c (1 # 10)) eqn:E; [left; reflexivity|right].
  apply Qltb_ge. exact E.
Qed.

(** X4: whichever bound policy is asked for, no reported coefficient is
    negative or a small positive number: each is exactly [0] or at least
    [0.1]. *)
Theorem reported_coefficients_zero_or_large
  (curve_fit : Solver) (df : DataFrame) (zero_bound : bool)
  (components : DataFrame) (coefdict : dict) (key : string) (v : Q) :
  find_components curve_fit df zero_bound = Ok (components, coefdict) ->
  dict_find coefdict key = Some v ->
  v = 0 \/ 1 # 10 <= v.
Proof.
  intros Hfc Hfind.
  destruct (find_components_inv _ _ _ _ _ Hfc)
    as (n0 & load & n1 & wind_ref & n2 & pv_ref & rest & fitted & d & H).
  cbn zeta in H. destruct H as (_ & _ & _ & _ & _ & ->).
  destruct (dict_find_update_inv _ _ _ _ Hfind) as [Hin|Hnil]; [|discriminate].
  apply in_combine_r in Hin. exact (zero_small_values _ _ Hin).
Qed.

Lemma reported_coefficients_zero_or_large_witness :
  exists components,
    find_components (fit_const [-5; 2]) table_negative_wind false
    = Ok (components, [("wind", 0); ("pv", 2)])
    /\ dict_find [("wind", 0); ("pv", 2)] "wind" = Some 0
    /\ ((0 : Q) = 0 \/ 1 # 10 <= 0).
Proof.
  destruct (find_components (fit_const [-5; 2]) table_negative_wind false)
    as [[components coefdict]|e] eqn:Hfc; [|discriminate].
  pose proof (reported_coefficients_zero_or_large
                (fit_const [-5; 2]) table_negative_wind false
                components coefdict "wind" 0 Hfc) as H.
  injection Hfc as <- <-.
  eexists. split; [reflexivity|]. split; [reflexivity|]. exact (H eq_refl).
Defined.

(** X5: when the reference columns have distinct names, the coefficient
    mapping has exactly these names as keys, in column order, each with the
    cleaned weight the solver gave its column. *)
Theorem coefdict_follows_columns
  (curve_fit : Solver) (df : DataFrame) (zero_bound : bool)
  (components : DataFrame) (coefdict : dict) :
  find_components curve_fit df zero_bound = Ok (components, coefdict) ->
  NoDup (map fst (skipn 1 (columns df))) ->
  exists load fitted,
    iloc_col df 0 = Ok load
    /\ curve_fit (weighted_sum (nrows df)) (map snd (skipn 1 (columns df))) load
                 (initial_guess load (List.length (columns df))) (bounds_of zero_bound)
       = Ok fitted
    /\ keys coefdict = map fst (skipn 1 (columns df))
    /\ values coefdict = zero_small fitted
    /\ List.length coefdict = (List.length (columns df) - 1)%nat.
Proof.
  intros Hfc Hnd.
  destruct (find_components_inv _ _ _ _ _ Hfc)
    as (n0 & load & n1 & wind_ref & n2 & pv_ref & rest & fitted & d & H).
  cbn zeta in H. destruct H as (Hcols & Hfit & Hlen & _ & _ & ->).
  exists load, fitted. unfold iloc_col. rewrite Hcols in *.
  cbn [skipn map fst snd nth_error] in *.
  assert (Hsame : List.length (n1 :: n2 :: map fst rest) = List.length (zero_small fitted))
    by (rewrite zero_small_length, Hlen; cbn [List.length]; now rewrite length_map).
  split; [reflexivity|]. split; [exact Hfit|].
  unfold dict_of_pairs. rewrite dict_update_fresh.
  - cbn [app]. unfold keys, values.
    rewrite map_fst_combine_same_length, map_snd_combine_same_length by exact Hsame.
    split; [reflexivity|]. split; [reflexivity|].
    rewrite length_combine, <- Hsame, Nat.min_id. cbn [List.length Nat.sub].
    rewrite length_map. unfold column. lia.
  - unfold keys. rewrite map_fst_combine_same_length by exact Hsame. exact Hnd.
  - intros key _ [].
Qed.

Lemma coefdict_follows_columns_witness :
  NoDup (map fst (skipn 1 (columns table_with_profile)))
  /\ exists components coefdict,
      find_components (fit_const [3; 2; 4]) table_with_profile true
      = Ok (components, coefdict)
      /\ keys coefdict = ["wind"; "pv"; "E1A"]
      /\ List.length coefdict = 3%nat.
Proof.
  assert (Hnd : NoDup (map fst (skipn 1 (columns table_with_profile)))).
  { cbn. repeat constructor; cbn; intuition discriminate. }
  split; [exact Hnd|].
  destruct (find_components (fit_const [3; 2; 4]) table_with_profile true)
    as [[components coefdict]|e] eqn:Hfc; [|discriminate].
  destruct (coefdict_follows_columns _ _ _ _ _ Hfc Hnd)
    as (load & fitted & _ & _ & Hkeys & _ & Hlen).
  exists components, coefdict. auto.
Defined.

Lemma diff_row_count (n : nat) (df : DataFrame) (d : list Q) :
  Forall (fun c : column => List.length (snd c) = n) (columns df) ->
  diff_axis1_iloc1 (iloc_0_2 df) = Ok d ->
  List.length d = n.
Proof.
  unfold diff_axis1_iloc1, iloc_0_2. cbn [columns].
  destruct (columns df) as [|[k0 v0] [|[k1 v1] cols]]; cbn [firstn]; try discriminate.
  intros Hall H. injection H as <-.
  pose proof (Forall_inv Hall) as H0.
  pose proof (Forall_inv (Forall_inv_tail Hall)) as H1.
  cbn [snd] in *. rewrite vsub_length, H0, H1. apply Nat.min_id.
Qed.

(** X7: a well-formed table gives a well-formed components frame: same
    index, and every column, added or taken over, has one entry per row. *)
Theorem components_frame_well_formed
  (curve_fit : Solver) (df : DataFrame) (zero_bound : bool)
  (components : DataFrame) (coefdict : dict) :
  frame_wf df ->
  find_components curve_fit df zero_bound = Ok (components, coefdict) ->
  index components = index df /\ frame_wf components.
Proof.
  intros Hwf Hfc.
  destruct (find_components_inv _ _ _ _ _ Hfc)
    as (n0 & load & n1 & wind_ref & n2 & pv_ref & rest & fitted & d & H).
  cbn zeta in H. destruct H as (Hcols & _ & _ & Hd & -> & _).
  split; [reflexivity|].
  pose proof Hwf as Hall. unfold frame_wf in Hall. rewrite Hcols in Hall.
  pose proof (Forall_inv Hall) as Hload.
  pose proof (Forall_inv (Forall_inv_tail Hall)) as Hwind.
  pose proof (Forall_inv (Forall_inv_tail (Forall_inv_tail Hall))) as Hpv.
  pose proof (Forall_inv_tail (Forall_inv_tail (Forall_inv_tail Hall))) as Hrest.
  cbn [snd] in *.
  assert (Hrows : Forall (fun row => List.length row = nrows df) (map snd rest))
    by (apply Forall_map; exact Hrest).
  match type of Hd with
  | diff_axis1_iloc1 (iloc_0_2 ?c5) = _ =>
      assert (H5 : Forall (fun col : column => List.length (snd col) = nrows df)
                          (columns c5))
  end.
  { unfold frame_setitem. cbn [columns index].
    repeat apply setitem_cols_row_count;
      rewrite ?vscale_length; try assumption;
      try (apply dot_T_length; repeat constructor; assumption).
    constructor; [exact Hload|constructor]. }
  unfold frame_wf, frame_setitem at 1. cbn [columns index nrows].
  apply setitem_cols_row_count; [exact H5|].
  rewrite length_map. exact (diff_row_count _ _ _ H5 Hd).
Qed.

Lemma components_frame_well_formed_witness :
  frame_wf table_flat_wind
  /\ find_components (fit_const [1; 1]) table_flat_wind true
     = Ok (components_flat_wind, [("wind", 1); ("pv", 1)])
  /\ index components_flat_wind = index table_flat_wind
  /\ frame_wf components_flat_wind.
Proof.
  assert (Hwf : frame_wf table_flat_wind) by (repeat constructor).
  split; [exact Hwf|]. split; [reflexivity|].
  apply (components_frame_well_formed (fit_const [1; 1]) table_flat_wind true
           components_flat_wind [("wind", 1); ("pv", 1)] Hwf eq_refl).
Defined.

(** X6: row by row, the estimate is the sum of the three components: wind,
    sun and standard usage. *)
Theorem estimate_is_sum_of_components
  (curve_fit : Solver) (df : DataFrame) (zero_bound : bool)
  (components : DataFrame) (coefdict : dict) :
  frame_wf df ->
  find_components curve_fit df zero_bound = Ok (components, coefdict) ->
  exists estimate wind solar standard,
    frame_getitem components "Inschatting" = Ok estimate
    /\ frame_getitem components "Windopwek" = Ok wind
    /\ frame_getitem components "Zonne-opwek" = Ok solar
    /\ frame_getitem components "StandaardVerbruik" = Ok standard
    /\ forall i, (i < nrows df)%nat ->
         nth i estimate 0 == nth i wind 0 + nth i solar 0 + nth i standard 0.
Proof.
  intros Hwf Hfc.
  destruct (find_components_inv _ _ _ _ _ Hfc)
    as (n0 & load & n1 & wind_ref & n2 & pv_ref & rest & fitted & d & H).
  cbn zeta in H. destruct H as (Hcols & _ & Hlen & _ & -> & _).
  pose proof Hwf as Hall. unfold frame_wf in Hall. rewrite Hcols in Hall.
  pose proof (Forall_inv (Forall_inv_tail Hall)) as Hwind.
  pose proof (Forall_inv (Forall_inv_tail (Forall_inv_tail Hall))) as Hpv.
  pose proof (Forall_inv_tail (Forall_inv_tail (Forall_inv_tail Hall))) as Hrest.
  cbn [snd] in *.
  assert (Hrows : Forall (fun row => List.length row = nrows df) (map snd rest))
    by (apply Forall_map; exact Hrest).
  destruct fitted as [|f0 [|f1 fitted]]; try discriminate.
  cbn [zero_small map nth skipn].
  do 4 eexists.
  split; [rewrite !frame_getitem_setitem_other by discriminate;
          apply frame_getitem_setitem_same|].
  split; [rewrite !frame_getitem_setitem_other by discriminate;
          apply frame_getitem_setitem_same|].
  split; [rewrite !frame_getitem_setitem_other by discriminate;
          apply frame_getitem_setitem_same|].
  split; [rewrite !frame_getitem_setitem_other by discriminate;
          apply frame_getitem_setitem_same|].
  intros i Hi. cbn [dot_T].
  rewrite nth_vadd.
  - rewrite nth_vadd.
    + ring.
    + rewrite vscale_length. lia.
    + rewrite dot_T_length by exact Hrows. exact Hi.
  - rewrite vscale_length. lia.
  - rewrite vadd_length, vscale_length, dot_T_length by exact Hrows. lia.
Qed.

Lemma estimate_is_sum_of_components_witness :
  frame_wf table_with_profile
  /\ exists components coefdict estimate wind solar standard,
      find_components (fit_const [3; 2; 4]) table_with_profile true
      = Ok (components, coefdict)
      /\ frame_getitem components "Inschatting" = Ok estimate
      /\ frame_getitem components "Windopwek" = Ok wind
      /\ frame_getitem components "Zonne-opwek" = Ok solar
      /\ frame_getitem components "StandaardVerbruik" = Ok standard
      /\ forall i, (i < nrows table_with_profile)%nat ->
           nth i estimate 0 == nth i wind 0 + nth i solar 0 + nth i standard 0.
Proof.
  assert (Hwf : frame_wf table_with_profile) by (repeat constructor).
  split; [exact Hwf|].
  destruct (find_components (fit_const [3; 2; 4]) table_with_profile true)
    as [[components coefdict]|e] eqn:Hfc; [|discriminate].
  destruct (estimate_is_sum_of_components _ _ _ _ _ Hwf Hfc)
    as (estimate & wind & solar & standard & H).
  exists components, coefdict, estimate, wind, solar, standard. auto.
Defined.

(** X8: when the load column's name is none of the six names
    [find_components] uses, the frame returned has seven columns: the load
    column under its own name, then estimate, baseline, wind, sun, standard
    usage and residual, in this order. *)
Theorem components_frame_layout
  (curve_fit : Solver) (df : DataFrame) (zero_bound : bool)
  (components : DataFrame) (coefdict : dict) :
  (forall name, In name (map fst (firstn 1 (columns df))) ->
                ~ In name component_names) ->
  find_components curve_fit df zero_bound = Ok (components, coefdict) ->
  map fst (columns components)
  = map fst (firstn 1 (columns df)) ++ component_names
  /\ iloc_col components 0 = iloc_col df 0.
Proof.
  intros Hname Hfc.
  destruct (find_components_inv _ _ _ _ _ Hfc)
    as (n0 & load & n1 & wind_ref & n2 & pv_ref & rest & fitted & d & H).
  cbn zeta in H. destruct H as (Hcols & _ & _ & _ & -> & _).
  assert (Hn0 : forall name, In name component_names -> String.eqb n0 name = false).
  { intros name Hin. apply String.eqb_neq. intros <-.
    apply (Hname n0); [rewrite Hcols; left; reflexivity|exact Hin]. }
  unfold iloc_col, frame_setitem. cbn [columns index]. rewrite Hcols.
  rewrite !setitem_cols_head by (apply Hn0; cbn; tauto).
  split; reflexivity.
Qed.

Lemma components_frame_layout_witness :
  find_components (fit_const [1; 1]) table_flat_wind true
  = Ok (components_flat_wind, [("wind", 1); ("pv", 1)])
  /\ map fst (columns components_flat_wind)
     = ["load"; "Inschatting"; "p0"; "Windopwek"; "Zonne-opwek";
        "StandaardVerbruik"; "Residu"]
  /\ iloc_col components_flat_wind 0 = iloc_col table_flat_wind 0.
Proof.
  split; [reflexivity|].
  apply (components_frame_layout (fit_const [1; 1]) table_flat_wind true
           components_flat_wind [("wind", 1); ("pv", 1)]).
  - intros name [<-|[]] Hin. cbn in Hin.
    repeat (destruct Hin as [Hin|Hin]; [discriminate|]). exact Hin.
  - reflexivity.
Defined.

Lemma zero_small_keeps_large (coefs : list Q) :
  Forall (fun c => 1 # 10 <= c) coefs -> zero_small coefs = coefs.
Proof.
  intro H. unfold zero_small. induction H as [|c coefs Hc _ IH]; [reflexivity|].
  cbn [map]. rewrite IH. apply Qltb_ge in Hc. now rewrite Hc.
Qed.

Lemma nth_vsub (a b : list Q) (i : nat) :
  (i < List.length a)%nat -> (i < List.length b)%nat ->
  nth i (vsub a b) 0 = nth i a 0 - nth i b 0.
Proof.
  revert b i. induction a as [|x a IH]; intros [|y b] [|i]; simpl; try lia.
  - reflexivity.
  - intros Ha Hb. apply IH; lia.
Qed.

(** X13: exact recovery.  When the load is, row by row, a weighted sum of the
    reference columns and the solver finds these weights, none below [0.1],
    the estimate reproduces the load and the residual is zero on every
    row. *)
Theorem exact_fit_has_zero_residual
  (curve_fit : Solver) (df : DataFrame) (zero_bound : bool)
  (components : DataFrame) (coefdict : dict) (load fitted : list Q) :
  frame_wf df ->
  (forall name, In name (map fst (firstn 1 (columns df))) ->
                ~ In name component_names) ->
  iloc_col df 0 = Ok load ->
  curve_fit (weighted_sum (nrows df)) (map snd (skipn 1 (columns df))) load
            (initial_guess load (List.length (columns df))) (bounds_of zero_bound)
  = Ok fitted ->
  Forall (fun c => 1 # 10 <= c) fitted ->
  (forall i, (i < nrows df)%nat ->
             nth i load 0 == weighted_entry i (map snd (skipn 1 (columns df))) fitted) ->
  find_components curve_fit df zero_bound = Ok (components, coefdict) ->
  exists estimate residual,
    frame_getitem components "Inschatting" = Ok estimate
    /\ frame_getitem components "Residu" = Ok residual
    /\ forall i, (i < nrows df)%nat ->
         nth i estimate 0 == nth i load 0 /\ nth i residual 0 == 0.
Proof.
  intros Hwf Hname Hload Hfit Hlarge Hexact Hfc.
  destruct (find_components_inv _ _ _ _ _ Hfc)
    as (n0 & load' & n1 & wind_ref & n2 & pv_ref & rest & fitted' & d & H).
  cbn zeta in H. destruct H as (Hcols & Hfit' & _ & Hd & -> & _).
  unfold iloc_col in Hload. rewrite Hcols in Hload, Hfit, Hexact.
  cbn [nth_error snd skipn map] in Hload, Hfit, Hexact. injection Hload as ->.
  rewrite <- Hcols in Hfit. rewrite Hfit in Hfit'. injection Hfit' as <-.
  rewrite (zero_small_keeps_large _ Hlarge) in *.
  assert (Hn0 : forall name, In name component_names -> String.eqb n0 name = false).
  { intros name Hin. apply String.eqb_neq. intros <-.
    apply (Hname n0); [rewrite Hcols; left; reflexivity|exact Hin]. }
  unfold iloc_0_2, diff_axis1_iloc1, frame_setitem in Hd.
  cbn [columns index] in Hd.
  rewrite !setitem_cols_head in Hd by (apply Hn0; cbn; tauto).
  cbn in Hd. injection Hd as <-.
  destruct (frame_wf_columns _ _ _ _ Hwf Hcols) as [Hlen Hrows].
  cbn [map snd] in Hrows.
  set (hist := dot_T (nrows df) (wind_ref :: pv_ref :: map snd rest) fitted).
  assert (Hhist : List.length hist = nrows df) by (apply dot_T_length; exact Hrows).
  exists hist, (map (Qmult (-1)) (vsub hist load)).
  split; [rewrite !frame_getitem_setitem_other by discriminate;
          apply frame_getitem_setitem_same|].
  split; [apply frame_getitem_setitem_same|].
  intros i Hi.
  assert (Hrow : nth i hist 0 == nth i load 0).
  { unfold hist. rewrite (dot_T_nth _ _ _ _ Hrows Hi). symmetry. apply Hexact. exact Hi. }
  split; [exact Hrow|].
  change 0 with (Qmult (-1) 0) at 1. rewrite map_nth.
  rewrite nth_vsub by lia. rewrite Hrow. ring.
Qed.

Lemma exact_fit_has_zero_residual_witness :
  frame_wf table_exact
  /\ Forall (fun c => 1 # 10 <= c) [3; 2]
  /\ exists components coefdict estimate residual,
      find_components (fit_const [3; 2]) table_exact true = Ok (components, coefdict)
      /\ frame_getitem components "Inschatting" = Ok estimate
      /\ frame_getitem components "Residu" = Ok residual
      /\ forall i, (i < nrows table_exact)%nat ->
           nth i estimate 0 == nth i [3; 2] 0 /\ nth i residual 0 == 0.
Proof.
  assert (Hwf : frame_wf table_exact) by (repeat constructor).
  assert (Hlarge : Forall (fun c => 1 # 10 <= c) [3; 2])
    by (repeat constructor; discriminate).
  split; [exact Hwf|]. split; [exact Hlarge|].
  destruct (find_components (fit_const [3; 2]) table_exact true)
    as [[components coefdict]|e] eqn:Hfc; [|discriminate].
  destruct (exact_fit_has_zero_residual (fit_const [3; 2]) table_exact true
              components coefdict [3; 2] [3; 2] Hwf) as (estimate & residual & H).
  - intros name [<-|[]] Hin. cbn in Hin.
    repeat (destruct Hin as [Hin|Hin]; [discriminate|]). exact Hin.
  - reflexivity.
  - reflexivity.
  - exact Hlarge.
  - intros i Hi. cbn in Hi.
    destruct i as [|[|i]]; [reflexivity|reflexivity|lia].
  - exact Hfc.
  - exists components, coefdict, estimate, residual. auto.
Defined.

(** ** The formatter and the orchestrator, continued *)

Lemma index_min_le_max (ix : list Timestamp) (tmin tmax : Timestamp) :
  index_min ix = Some tmin -> index_max ix = Some tmax -> (tmin <= tmax)%Z.
Proof.
  destruct ix as [|t0 r]; [discriminate|]. intros Hmin Hmax.
  injection Hmin as <-. injection Hmax as <-.
  destruct (fold_min_spec r t0) as [_ Hlo]. destruct (fold_max_spec r t0) as [_ Hhi].
  etransitivity; [apply Hlo|apply Hhi]; left; reflexivity.
Qed.

(** X14: one call of the formatter reads the clock once and stamps every row
    with that reading; on each row the start date is not after the end
    date, and both are missing only for a table without rows. *)
Theorem formatter_rows_metadata (utcnow_at : nat -> Z) (pj : PredictionJob)
  (input_table : DataFrame) (coefdict : dict) (w : World) :
  clock_reads (snd (convert_coefdict_to_coefsdf utcnow_at pj input_table coefdict w))
  = S (clock_reads w)
  /\ forall rows r,
      fst (convert_coefdict_to_coefsdf utcnow_at pj input_table coefdict w) = Ok rows ->
      In r rows ->
      created r = utcnow_at (clock_reads w)
      /\ match date_start r, date_end r with
         | Some a, Some b => (a <= b)%Z
         | None, None => index input_table = []
         | _, _ => False
         end.
Proof.
  rewrite convert_run. cbn [fst snd clock_reads]. split; [reflexivity|].
  intros rows r Hrows Hr. injection Hrows as <-.
  unfold coef_rows in Hr. apply in_map_iff in Hr. destruct Hr as (kv & <- & _).
  cbn [created date_start date_end]. split; [reflexivity|].
  destruct (index input_table) as [|t0 ix] eqn:Eix; [reflexivity|].
  destruct (index_min (t0 :: ix)) as [tmin|] eqn:Emin; [|discriminate].
  destruct (index_max (t0 :: ix)) as [tmax|] eqn:Emax; [|discriminate].
  cbn [option_map]. apply date_monotone. exact (index_min_le_max _ _ _ Emin Emax).
Qed.

(** X15: when the validator accepts, the candidate record is appended to
    storage exactly once, in mode ["append"], no alert is sent, and the
    record returned is the one that was written. *)
Theorem acceptance_writes_and_returns
  (curve_fit : Solver) (db : DataBase) (utcnow_at : nat -> Z)
  (job_id : Z) (w : World) (pj : PredictionJob) (df components : DataFrame)
  (coefdict mean_coefs : dict) (error : list Q) :
  get_prediction_job db job_id = Ok pj ->
  get_input_energy_splitting db pj = Ok df ->
  find_components curve_fit df true = Ok (components, coefdict) ->
  (sel <- frame_select2 components "load" "Inschatting" ;; diff_axis1_iloc1 sel)
  = Ok error ->
  get_energy_split_coefs db pj true = Ok mean_coefs ->
  are_new_coefs_valid (dict_update coefdict [("MAE", series_mean (map Qabs error))])
                      mean_coefs = Ok true ->
  exists record,
    fst (split_energy curve_fit db utcnow_at job_id w) = Ok record
    /\ written (snd (split_energy curve_fit db utcnow_at job_id w))
       = written w ++ [record]
    /\ alerted (snd (split_energy curve_fit db utcnow_at job_id w)) = alerted w
    /\ In (WriteEnergySplittingCoefficients record "append")
          (events (snd (split_energy curve_fit db utcnow_at job_id w)))
    /\ fst (convert_coefdict_to_coefsdf utcnow_at pj df
              (dict_update coefdict [("MAE", series_mean (map Qabs error))]) w)
       = Ok record.
Proof.
  intros Hpj Hdf Hfc Herr Hmean Hvalid.
  rewrite (split_energy_run _ _ _ _ _ _ _ _ _ _ _ _ Hpj Hdf Hfc Herr Hmean Hvalid).
  cbn zeta. cbn [fst snd]. eexists. split; [reflexivity|].
  rewrite written_app, alerted_app.
  cbn [written alerted events flat_map app]. rewrite app_nil_r.
  split; [reflexivity|]. split; [reflexivity|]. split.
  - apply in_or_app. right. right. left. reflexivity.
  - rewrite convert_run. reflexivity.
Qed.

Lemma acceptance_writes_and_returns_witness :
  exists record,
    fst (run_example table_flat_wind [("wind", 1); ("pv", 1)] []) = Ok record
    /\ written (snd (run_example table_flat_wind [("wind", 1); ("pv", 1)] []))
       = [record]
    /\ alerted (snd (run_example table_flat_wind [("wind", 1); ("pv", 1)] [])) = [].
Proof.
  destruct (acceptance_writes_and_returns
              (fit_const [1; 1])
              (db_example table_flat_wind [("wind", 1); ("pv", 1)] [])
              clock_example 7 fresh_world {| pj_id := 7 |} table_flat_wind
              components_flat_wind [("wind", 1); ("pv", 1)] [("wind", 1); ("pv", 1)]
              [-1; 1] eq_refl eq_refl eq_refl eq_refl eq_refl eq_refl)
    as (record & Hret & Hwritten & Halerted & _).
  exists record. split; [exact Hret|]. split; [exact Hwritten|exact Halerted].
Defined.

(** X16: a first run, with no history in the store, is always accepted:
    the candidate record is written and returned. *)
Theorem first_run_is_accepted
  (curve_fit : Solver) (db : DataBase) (utcnow_at : nat -> Z)
  (job_id : Z) (w : World) (pj : PredictionJob) (df components : DataFrame)
  (coefdict : dict) (error : list Q) :
  get_prediction_job db job_id = Ok pj ->
  get_input_energy_splitting db pj = Ok df ->
  find_components curve_fit df true = Ok (components, coefdict) ->
  (sel <- frame_select2 components "load" "Inschatting" ;; diff_axis1_iloc1 sel)
  = Ok error ->
  get_energy_split_coefs db pj true = Ok [] ->
  exists record,
    fst (split_energy curve_fit db utcnow_at job_id w) = Ok record
    /\ written (snd (split_energy curve_fit db utcnow_at job_id w))
       = written w ++ [record]
    /\ alerted (snd (split_energy curve_fit db utcnow_at job_id w)) = alerted w.
Proof.
  intros Hpj Hdf Hfc Herr Hmean.
  rewrite (split_energy_run _ _ _ _ _ _ _ _ _ _ _ true Hpj Hdf Hfc Herr Hmean eq_refl).
  cbn zeta. cbn [fst snd]. eexists. split; [reflexivity|].
  rewrite written_app, alerted_app.
  cbn [written alerted events flat_map app]. rewrite app_nil_r.
  split; reflexivity.
Qed.

Lemma first_run_is_accepted_witness :
  exists record,
    fst (run_example table_flat_wind [] []) = Ok record
    /\ written (snd (run_example table_flat_wind [] [])) = [record]
    /\ alerted (snd (run_example table_flat_wind [] [])) = [].
Proof.
  apply (first_run_is_accepted
           (fit_const [1; 1]) (db_example table_flat_wind [] [])
           clock_example 7 fresh_world {| pj_id := 7 |} table_flat_wind
           components_flat_wind [("wind", 1); ("pv", 1)]
           [-1; 1] eq_refl eq_refl eq_refl eq_refl eq_refl).
Defined.

Lemma written_log (w : World) (es : list Event) (n : nat) :
  written {| events := es; clock_reads := n |} = [] ->
  written {| events := events w ++ es; clock_reads := n |} = written w.
Proof. intro H. rewrite written_app, H. apply app_nil_r. Qed.

Lemma alerted_log (w : World) (es : list Event) (n : nat) :
  alerted {| events := es; clock_reads := n |} = [] ->
  alerted {| events := events w ++ es; clock_reads := n |} = alerted w.
Proof. intro H. rewrite alerted_app, H. apply app_nil_r. Qed.

(** X17: whatever the collaborators do, one call of [split_energy] ends in
    one of three ways: it raises having neither written nor alerted; or it
    writes one record, sends no alert and returns that record; or it sends
    one alert and writes nothing.  It never does both. *)
Theorem split_energy_writes_or_alerts
  (curve_fit : Solver) (db : DataBase) (utcnow_at : nat -> Z) (job_id : Z) (w : World) :
  (written (snd (split_energy curve_fit db utcnow_at job_id w)) = written w
   /\ alerted (snd (split_energy curve_fit db utcnow_at job_id w)) = alerted w
   /\ exists e, fst (split_energy curve_fit db utcnow_at job_id w) = Raise e)
  \/ (exists record,
         written (snd (split_energy curve_fit db utcnow_at job_id w))
         = written w ++ [record]
         /\ alerted (snd (split_energy curve_fit db utcnow_at job_id w)) = alerted w
         /\ fst (split_energy curve_fit db utcnow_at job_id w) = Ok record)
  \/ (exists job record,
         written (snd (split_energy curve_fit db utcnow_at job_id w)) = written w
         /\ alerted (snd (split_energy curve_fit db utcnow_at job_id w))
            = alerted w ++ [(job, record)]).
Proof.
  destruct (get_prediction_job db job_id) as [pj|e] eqn:Hpj.
  2:{ left. unfold split_energy, lift. cbn [bind io_monad]. rewrite Hpj.
      cbn [fst snd]. eauto. }
  destruct (get_input_energy_splitting db pj) as [df|e] eqn:Hdf.
  2:{ left. unfold split_energy, lift, emit. cbn [bind io_monad]. rewrite Hpj.
      cbn [events clock_reads]. rewrite Hdf. cbn [fst snd].
      rewrite written_log, alerted_log by reflexivity. eauto. }
  destruct (find_components curve_fit df true) as [[components coefdict]|e] eqn:Hfc.
  2:{ left. unfold split_energy, lift, emit. cbn [bind io_monad]. rewrite Hpj.
      cbn [events clock_reads]. rewrite Hdf, Hfc. cbn [fst snd].
      rewrite written_log, alerted_log by reflexivity. eauto. }
  destruct (sel <- frame_select2 components "load" "Inschatting" ;; diff_axis1_iloc1 sel)
    as [error|e] eqn:Herr.
  2:{ left. unfold split_energy, lift, emit. cbn [bind io_monad]. rewrite Hpj.
      cbn [events clock_reads]. rewrite Hdf, Hfc, Herr. cbn [fst snd].
      rewrite written_log, alerted_log by reflexivity. eauto. }
  destruct (get_energy_split_coefs db pj true) as [mean_coefs|e] eqn:Hmean.
  2:{ left. unfold split_energy, lift, emit. cbn [bind io_monad]. rewrite Hpj.
      cbn [events clock_reads]. rewrite Hdf, Hfc, Herr, convert_run.
      cbn [events clock_reads]. rewrite Hmean. cbn [fst snd].
      rewrite written_log, alerted_log by reflexivity. eauto. }
  destruct (are_new_coefs_valid
              (dict_update coefdict [("MAE", series_mean (map Qabs error))]) mean_coefs)
    as [b|e] eqn:Hvalid.
  2:{ left. unfold split_energy, lift, emit. cbn [bind io_monad]. rewrite Hpj.
      cbn [events clock_reads]. rewrite Hdf, Hfc, Herr, convert_run.
      cbn [events clock_reads]. rewrite Hmean, Hvalid. cbn [fst snd].
      rewrite written_log, alerted_log by reflexivity. eauto. }
  rewrite (split_energy_run _ _ _ _ _ _ _ _ _ _ _ _ Hpj Hdf Hfc Herr Hmean Hvalid).
  cbn zeta. destruct b.
  - right. left. eexists. cbn [fst snd].
    rewrite written_app, alerted_app.
    cbn [written alerted events flat_map app]. rewrite app_nil_r.
    repeat split; reflexivity.
  - right. right. exists (pj_id pj). eexists.
    destruct (get_energy_split_coefs db pj false) as [last_coefdict|e];
      cbn [fst snd]; rewrite written_app, alerted_app;
      cbn [written alerted events flat_map app];
      rewrite app_nil_r; split; reflexivity.
Qed.

(** X18: an exception of the validator (a key of the historical mean that
    the candidate lacks) aborts the run: it reaches the caller, nothing is
    written and no alert is sent. *)
Theorem validator_error_aborts_run
  (curve_fit : Solver) (db : DataBase) (utcnow_at : nat -> Z)
  (job_id : Z) (w : World) (pj : PredictionJob) (df components : DataFrame)
  (coefdict mean_coefs : dict) (error : list Q) (e : exn) :
  get_prediction_job db job_id = Ok pj ->
  get_input_energy_splitting db pj = Ok df ->
  find_components curve_fit df true = Ok (components, coefdict) ->
  (sel <- frame_select2 components "load" "Inschatting" ;; diff_axis1_iloc1 sel)
  = Ok error ->
  get_energy_split_coefs db pj true = Ok mean_coefs ->
  are_new_coefs_valid (dict_update coefdict [("MAE", series_mean (map Qabs error))])
                      mean_coefs = Raise e ->
  fst (split_energy curve_fit db utcnow_at job_id w) = Raise e
  /\ written (snd (split_energy curve_fit db utcnow_at job_id w)) = written w
  /\ alerted (snd (split_energy curve_fit db utcnow_at job_id w)) = alerted w.
Proof.
  intros Hpj Hdf Hfc Herr Hmean Hvalid.
  unfold split_energy, lift, emit. cbn [bind io_monad]. rewrite Hpj.
  cbn [events clock_reads]. rewrite Hdf, Hfc, Herr, convert_run.
  cbn [events clock_reads]. rewrite Hmean, Hvalid. cbn [fst snd].
  rewrite written_log, alerted_log by reflexivity. repeat split.
Qed.

Lemma validator_error_aborts_run_witness :
  fst (run_example table_flat_wind [("wind", 1); ("E1A", 4)] []) = Raise (KeyError "E1A")
  /\ written (snd (run_example table_flat_wind [("wind", 1); ("E1A", 4)] [])) = []
  /\ alerted (snd (run_example table_flat_wind [("wind", 1); ("E1A", 4)] [])) = [].
Proof.
  apply (validator_error_aborts_run
           (fit_const [1; 1]) (db_example table_flat_wind [("wind", 1); ("E1A", 4)] [])
           clock_example 7 fresh_world {| pj_id := 7 |} table_flat_wind
           components_flat_wind [("wind", 1); ("pv", 1)] [("wind", 1); ("E1A", 4)]
           [-1; 1] (KeyError "E1A") eq_refl eq_refl eq_refl eq_refl eq_refl eq_refl).
Defined.

Lemma dict_find_some_in_keys (d : dict) (key : string) (v : Q) :
  dict_find d key = Some v -> In key (keys d).
Proof.
  intro H. destruct (in_dec string_dec key (keys d)) as [Hin|Hnot]; [exact Hin|].
  apply dict_find_none in Hnot. congruence.
Qed.

Lemma coef_rows_names (pj : PredictionJob) (df : DataFrame) (now : Z) (d : dict) :
  map coef_name (coef_rows pj df now d) = keys d.
Proof. unfold coef_rows, keys. rewrite map_map. reflexivity. Qed.

Lemma find_components_keys
  (curve_fit : Solver) (df : DataFrame) (zero_bound : bool)
  (components : DataFrame) (coefdict : dict) :
  find_components curve_fit df zero_bound = Ok (components, coefdict) ->
  NoDup (map fst (skipn 1 (columns df))) ->
  keys coefdict = map fst (skipn 1 (columns df)).
Proof.
  intros Hfc Hnd.
  destruct (find_components_inv _ _ _ _ _ Hfc)
    as (n0 & load & n1 & wind_ref & n2 & pv_ref & rest & fitted & d & H).
  cbn zeta in H. destruct H as (Hcols & _ & Hlen & _ & _ & ->).
  rewrite Hcols in *. cbn [skipn map fst] in *.
  assert (Hsame : List.length (n1 :: n2 :: map fst rest) = List.length (zero_small fitted))
    by (rewrite zero_small_length, Hlen; cbn [List.length]; now rewrite length_map).
  unfold dict_of_pairs. rewrite dict_update_fresh.
  - cbn [app]. unfold keys. now rewrite map_fst_combine_same_length.
  - unfold keys. rewrite map_fst_combine_same_length by exact Hsame. exact Hnd.
  - intros key _ [].
Qed.

(** X19: the record that is written carries the mean absolute error as a
    row named ["MAE"] beside the weights; with distinctly named reference
    columns, none of them called ["MAE"], its rows are the reference columns
    in order followed by ["MAE"]. *)
Theorem written_record_has_mae_row
  (curve_fit : Solver) (db : DataBase) (utcnow_at : nat -> Z)
  (job_id : Z) (w : World) (pj : PredictionJob) (df components : DataFrame)
  (coefdict mean_coefs : dict) (error : list Q) :
  get_prediction_job db job_id = Ok pj ->
  get_input_energy_splitting db pj = Ok df ->
  find_components curve_fit df true = Ok (components, coefdict) ->
  (sel <- frame_select2 components "load" "Inschatting" ;; diff_axis1_iloc1 sel)
  = Ok error ->
  get_energy_split_coefs db pj true = Ok mean_coefs ->
  are_new_coefs_valid (dict_update coefdict [("MAE", series_mean (map Qabs error))])
                      mean_coefs = Ok true ->
  exists record,
    written (snd (split_energy curve_fit db utcnow_at job_id w)) = written w ++ [record]
    /\ (exists row, In row record /\ coef_name row = "MAE"
                    /\ coef_value row = series_mean (map Qabs error))
    /\ (NoDup (map fst (skipn 1 (columns df))) ->
        ~ In "MAE" (map fst (skipn 1 (columns df))) ->
        map coef_name record = map fst (skipn 1 (columns df)) ++ ["MAE"]).
Proof.
  intros Hpj Hdf Hfc Herr Hmean Hvalid.
  rewrite (split_energy_run _ _ _ _ _ _ _ _ _ _ _ _ Hpj Hdf Hfc Herr Hmean Hvalid).
  cbn zeta. cbn [fst snd]. eexists. split.
  { rewrite written_app. cbn [written events flat_map app]. reflexivity. }
  set (mae := series_mean (map Qabs error)).
  change (dict_update coefdict [("MAE", mae)]) with (dict_setitem coefdict "MAE" mae).
  split.
  - assert (Hin : In ("MAE", mae) (dict_setitem coefdict "MAE" mae)).
    { clear. induction coefdict as [|[k v] d IH]; cbn [dict_setitem].
      - left. reflexivity.
      - destruct (String.eqb_spec k "MAE") as [->|Hne]; [left; reflexivity|].
        right. exact IH. }
    eexists. split.
    + unfold coef_rows. apply in_map. exact Hin.
    + split; reflexivity.
  - intros Hnd Hfresh. rewrite coef_rows_names.
    rewrite dict_setitem_fresh.
    + unfold keys. rewrite map_app. cbn [map fst].
      fold (keys coefdict). now rewrite (find_components_keys _ _ _ _ _ Hfc Hnd).
    + rewrite (find_components_keys _ _ _ _ _ Hfc Hnd). exact Hfresh.
Qed.

Lemma written_record_has_mae_row_witness :
  exists record,
    written (snd (run_example table_flat_wind [("wind", 1); ("pv", 1)] [])) = [record]
    /\ map coef_name record = ["wind"; "pv"; "MAE"].
Proof.
  destruct (written_record_has_mae_row
              (fit_const [1; 1])
              (db_example table_flat_wind [("wind", 1); ("pv", 1)] [])
              clock_example 7 fresh_world {| pj_id := 7 |} table_flat_wind
              components_flat_wind [("wind", 1); ("pv", 1)] [("wind", 1); ("pv", 1)]
              [-1; 1] eq_refl eq_refl eq_refl eq_refl eq_refl eq_refl)
    as (record & Hwritten & _ & Hnames).
  exists record. split; [exact Hwritten|].
  apply Hnames.
  - cbn. repeat constructor; cbn; intuition discriminate.
  - cbn. intuition discriminate.
Defined.

(** ** The Tracy job runner, continued *)

Section TracyRunnerContinued.

Import RunTracy.

Variable PredictionJob : Type.
Variable get_all_tracy_jobs : Z -> list TracyJob.
Variable py_int : string -> result Z.
Variable get_prediction_job : Z -> result PredictionJob.
Variable logger_info_no_event : result unit.
Variable train_model_task : PredictionJob -> result unit.
Variable optimize_hyperparameters_task : PredictionJob -> result unit.

Local Abbreviation try_job' :=
  (try_job PredictionJob py_int get_prediction_job logger_info_no_event
           train_model_task optimize_hyperparameters_task).
Local Abbreviation run_tracy' :=
  (run_tracy PredictionJob get_all_tracy_jobs py_int get_prediction_job
             logger_info_no_event train_model_task optimize_hyperparameters_task).
Local Abbreviation job_events' :=
  (job_events PredictionJob py_int get_prediction_job logger_info_no_event
              train_model_task optimize_hyperparameters_task).

Lemma job_events_unknown (job : TracyJob) :
  known_function (function job) = false ->
  job_events' job =
  [UpdateTracyJob (set_inprogress job 1); LogInfo "Process job";
   LogError "Unkown Tracy job"].
Proof.
  intro Hknown. unfold job_events, process_job, try_except, emit.
  cbn [snd bind ret io_monad].
  rewrite try_job_unknown by exact Hknown. reflexivity.
Qed.

Lemma deleted_of_job (job : TracyJob) :
  map id (deleted_jobs (job_events' job)) =
  if known_function (function job) then [id job] else [].
Proof.
  destruct (known_function (function job)) eqn:Hknown.
  - rewrite (job_events_known _ _ _ _ _ _ job [] Hknown).
    destruct (fst (try_job' (set_inprogress job 1) [])); reflexivity.
  - rewrite (job_events_unknown job Hknown). reflexivity.
Qed.

Lemma updated_of_job (job : TracyJob) :
  filter (fun j => (inprogress j =? 1)%Z) (updated_jobs (job_events' job)) =
  [set_inprogress job 1].
Proof.
  destruct (known_function (function job)) eqn:Hknown.
  - rewrite (job_events_known _ _ _ _ _ _ job [] Hknown).
    destruct (fst (try_job' (set_inprogress job 1) [])); reflexivity.
  - rewrite (job_events_unknown job Hknown). reflexivity.
Qed.

Lemma deleted_jobs_app (w1 w2 : World) :
  deleted_jobs (w1 ++ w2) = deleted_jobs w1 ++ deleted_jobs w2.
Proof. apply flat_map_app. Qed.

Lemma updated_jobs_app (w1 w2 : World) :
  updated_jobs (w1 ++ w2) = updated_jobs w1 ++ updated_jobs w2.
Proof. apply flat_map_app. Qed.

Lemma deleted_of_jobs (jobs : list TracyJob) :
  map id (deleted_jobs (flat_map job_events' jobs)) =
  map id (filter (fun j => known_function (function j)) jobs).
Proof.
  induction jobs as [|job jobs IH]; [reflexivity|].
  cbn [flat_map filter]. rewrite deleted_jobs_app, map_app, deleted_of_job, IH.
  destruct (known_function (function job)); reflexivity.
Qed.

Lemma updated_of_jobs (jobs : list TracyJob) :
  filter (fun j => (inprogress j =? 1)%Z) (updated_jobs (flat_map job_events' jobs)) =
  map (fun j => set_inprogress j 1) jobs.
Proof.
  induction jobs as [|job jobs IH]; [reflexivity|].
  cbn [flat_map map]. rewrite updated_jobs_app, filter_app, updated_of_job, IH.
  reflexivity.
Qed.

(** The events one run adds. *)
Lemma run_tracy_new_events (w : World) :
  exists new,
    run_tracy' w = (Ok tt, w ++ new)
    /\ map id (deleted_jobs new)
       = map id (filter (fun j => known_function (function j)) (get_all_tracy_jobs 0))
    /\ filter (fun j => (inprogress j =? 1)%Z) (updated_jobs new)
       = map (fun j => set_inprogress j 1) (get_all_tracy_jobs 0).
Proof.
  eexists. split; [apply run_tracy_run|].
  destruct (get_all_tracy_jobs 0) as [|job jobs]; [split; reflexivity|].
  rewrite !deleted_jobs_app, !updated_jobs_app, !map_app, !filter_app.
  rewrite deleted_of_jobs, updated_of_jobs. cbn [deleted_jobs updated_jobs flat_map
    map filter app]. rewrite !app_nil_r. split; reflexivity.
Qed.

(** X20: the run returns, and the jobs it deletes are exactly the fetched
    jobs whose function name it knows, in the order fetched: none with an
    unknown name, and none twice. *)
Theorem run_tracy_deletes_known_jobs (w : World) :
  fst (run_tracy' w) = Ok tt
  /\ map id (deleted_jobs (snd (run_tracy' w)))
     = map id (deleted_jobs w)
       ++ map id (filter (fun j => known_function (function j)) (get_all_tracy_jobs 0)).
Proof.
  destruct (run_tracy_new_events w) as (new & -> & Hdel & _).
  cbn [fst snd]. split; [reflexivity|].
  now rewrite deleted_jobs_app, map_app, Hdel.
Qed.

(** X21: every fetched job, known or not, is written back once with
    [inprogress = 1], in the order fetched. *)
Theorem run_tracy_marks_every_job (w : World) :
  filter (fun j => (inprogress j =? 1)%Z) (updated_jobs (snd (run_tracy' w)))
  = filter (fun j => (inprogress j =? 1)%Z) (updated_jobs w)
    ++ map (fun j => set_inprogress j 1) (get_all_tracy_jobs 0).
Proof.
  destruct (run_tracy_new_events w) as (new & -> & _ & Hupd).
  cbn [snd]. now rewrite updated_jobs_app, filter_app, Hupd.
Qed.

(** X22: a fetched job with an unknown function name is marked in progress,
    an error is logged, and that is all: nothing is posted and, ids being
    unique, the run deletes no job of that id. *)
Theorem unknown_job_is_left_in_progress (job : TracyJob) (w : World) :
  In job (get_all_tracy_jobs 0) ->
  known_function (function job) = false ->
  NoDup (map id (get_all_tracy_jobs 0)) ->
  exists before after,
    run_tracy' w =
    (Ok tt,
     w ++ before
       ++ [UpdateTracyJob (set_inprogress job 1); LogInfo "Process job";
           LogError "Unkown Tracy job"]
       ++ after)
    /\ ~ In (id job) (map id (deleted_jobs (before ++ after))).
Proof.
  intros Hin Hknown Hnd. rewrite run_tracy_run.
  destruct (in_split _ _ Hin) as (l1 & l2 & Hjobs).
  destruct (get_all_tracy_jobs 0) as [|j0 jobs] eqn:Ejobs; [destruct l1; discriminate|].
  rewrite Hjobs in *. rewrite flat_map_app. cbn [flat_map].
  rewrite (job_events_unknown job Hknown).
  exists ([LogInfo "Start processing Tracy jobs"] ++ flat_map job_events' l1),
    (flat_map job_events' l2 ++ [LogInfo "Finished processing all Tracy jobs - Tracy out!"]).
  split; [rewrite <- !app_assoc; reflexivity|].
  rewrite !deleted_jobs_app, !map_app, !deleted_of_jobs.
  cbn [deleted_jobs flat_map map app]. rewrite app_nil_r.
  intro Hdel. apply in_app_or in Hdel.
  rewrite map_app in Hnd. cbn [map] in Hnd. apply NoDup_remove_2 in Hnd.
  apply Hnd. apply in_or_app.
  destruct Hdel as [Hdel|Hdel]; [left|right];
    apply in_map_iff in Hdel; destruct Hdel as (j & Hid & Hj);
    apply filter_In in Hj; destruct Hj as [Hj _];
    apply in_map_iff; exists j; auto.
Qed.

End TracyRunnerContinued.

Lemma unknown_job_is_left_in_progress_witness :
  In job_unknown [job_bad_args; job_unknown]
  /\ known_function (RunTracy.function job_unknown) = false
  /\ NoDup (map RunTracy.id [job_bad_args; job_unknown])
  /\ exists before after,
      RunTracy.run_tracy Z (fun _ => [job_bad_args; job_unknown])
        (fun _ => Raise ValueError) (fun n => Ok n) (Ok tt)
        (fun _ => Ok tt) (fun _ => Ok tt) []
      = (Ok tt,
         [] ++ before
            ++ [RunTracy.UpdateTracyJob (RunTracy.set_inprogress job_unknown 1);
                RunTracy.LogInfo "Process job";
                RunTracy.LogError "Unkown Tracy job"]
            ++ after)
      /\ ~ In (RunTracy.id job_unknown) (map RunTracy.id (deleted_jobs (before ++ after))).
Proof.
  assert (Hin : In job_unknown [job_bad_args; job_unknown])
    by (right; left; reflexivity).
  assert (Hnd : NoDup (map RunTracy.id [job_bad_args; job_unknown])).
  { cbn. repeat constructor; cbn; intuition discriminate. }
  split; [exact Hin|]. split; [reflexivity|]. split; [exact Hnd|].
  apply (unknown_job_is_left_in_progress Z (fun _ => [job_bad_args; job_unknown])
           (fun _ => Raise ValueError) (fun n => Ok n) (Ok tt)
           (fun _ => Ok tt) (fun _ => Ok tt) job_unknown [] Hin eq_refl Hnd).
Defined.
